(** * Sentiment dashboard (app.py): text cleaning, classification,
      metrics, charts, filter and export

    A shallow embedding of the Streamlit script [app.py].  Python strings are
    lists of Unicode code points; the regular expressions of [clean_text] are
    kept as regular expressions and run by a small backtracking matcher with
    the leftmost, greedy semantics of Python's [re] module.  The exported
    file is the text Python's [csv.writer] writes, and it is read again by
    the tokenizer of [pd.read_csv], character by character. *)

From Stdlib Require Import String Ascii List NArith ZArith Lia Bool.
From Stdlib Require Import DecimalString DecimalZ.
From Stdlib Require Import Floats.SpecFloat Sorted Permutation.
Import ListNotations.

Local Open Scope N_scope.

(* ================================================================== *)
(** ** Python strings *)

(** A Python [str] is a sequence of Unicode code points. *)
Definition char := N.
Definition str := list char.

(** The code points of an ASCII literal of the source. *)
Definition lit (s : string) : str := map N_of_ascii (list_ascii_of_string s).

Definition char_eqb (a b : char) : bool := N.eqb a b.

Fixpoint str_eqb (a b : str) : bool :=
  match a, b with
  | [], [] => true
  | x :: a', y :: b' => char_eqb x y && str_eqb a' b'
  | _, _ => false
  end.

Definition in_range (lo hi c : char) : bool := (N.leb lo c && N.leb c hi)%bool.

Definition is_ascii (c : char) : bool := N.ltb c 128.

(** [a-z] *)
Definition is_az (c : char) : bool := in_range 97 122 c.
(** [A-Z] *)
Definition is_AZ (c : char) : bool := in_range 65 90 c.
(** [0-9] *)
Definition is_digit (c : char) : bool := in_range 48 57 c.

(** ASCII white space as [str.isspace] has it: TAB, LF, VT, FF, CR, the four
    separators FS, GS, RS, US, and the space. *)
Definition ascii_isspace (c : char) : bool :=
  (in_range 9 13 c || in_range 28 31 c || N.eqb c 32)%bool.

Definition ascii_lower (c : char) : char := if is_AZ c then (c + 32) else c.

(* ================================================================== *)
(** ** Python values held in a table cell *)

(** A cell holds a string, an integer, a float or a boolean; a missing value
    is the float NaN, as pandas has it. *)
Inductive value : Type :=
| VStr (s : str)
| VInt (z : Z)
| VFloat (f : spec_float)
| VBool (b : bool).

Definition NaN : value := VFloat S754_nan.

(** The text of a finite float is left to the interpreter. *)
Class FloatText : Type := {
  repr_finite : bool -> positive -> Z -> str;
  (** the text of [round(n / total * 100, 1)] for a non-zero [total] *)
  percent_text : nat -> nat -> str
}.

Definition str_of_Z (z : Z) : str := lit (NilZero.string_of_int (Z.to_int z)).

Section Str.

Context {F : FloatText}.

Definition float_str (f : spec_float) : str :=
  match f with
  | S754_nan => lit "nan"
  | S754_infinity false => lit "inf"
  | S754_infinity true => lit "-inf"
  | S754_zero false => lit "0.0"
  | S754_zero true => lit "-0.0"
  | S754_finite s m e => repr_finite s m e
  end.

(** [str(v)] *)
Definition py_str (v : value) : str :=
  match v with
  | VStr s => s
  | VInt z => str_of_Z z
  | VFloat f => float_str f
  | VBool true => lit "True"
  | VBool false => lit "False"
  end.

End Str.

Fixpoint drop_while (p : char -> bool) (s : str) : str :=
  match s with
  | c :: s' => if p c then drop_while p s' else s
  | [] => []
  end.

(** What is left of [s] after the literal [w], when [s] starts with it. *)
Fixpoint strip_prefix (w s : str) : option str :=
  match w with
  | [] => Some s
  | c :: w' =>
      match s with
      | d :: s' => if char_eqb c d then strip_prefix w' s' else None
      | [] => None
      end
  end.

(** What Python decides from the Unicode database for text that is not
    ASCII is left open: every theorem holds whatever these tables are. *)
Class Unicode : Type := {
  unicode_lower : str -> str;
  unicode_isspace : char -> bool;
  unicode_isalnum : char -> bool
}.

Section Text.

Context {U : Unicode} {F : FloatText}.

(** [text.lower()] *)
Definition py_lower (s : str) : str :=
  if forallb is_ascii s then map ascii_lower s else unicode_lower s.

(** [\s] and the white space of [str.strip()] *)
Definition py_isspace (c : char) : bool :=
  if is_ascii c then ascii_isspace c else unicode_isspace c.

(** [\w] *)
Definition py_isword (c : char) : bool :=
  if is_ascii c
  then (is_az c || is_AZ c || is_digit c || N.eqb c 95)%bool
  else unicode_isalnum c.

Definition lstrip (s : str) : str := drop_while py_isspace s.

(** [text.strip()]: white space is dropped at both ends. *)
Definition py_strip (s : str) : str := rev (lstrip (rev (lstrip s))).

(* ================================================================ *)
(** ** Regular expressions *)

(** The fragment of [re] the script uses: one character of a class,
    concatenation, alternation and a greedy [+] over a class.  No pattern
    of this fragment matches the empty string. *)
Inductive regex : Type :=
| Chr (p : char -> bool)
| Seq (r1 r2 : regex)
| Alt (r1 r2 : regex)
| Plus (p : char -> bool).

(** Greedy repetition: take one more character when possible, and give it
    back when the rest of the pattern then fails. *)
Fixpoint star_k (p : char -> bool) (s : str) (k : str -> option str)
  : option str :=
  match s with
  | c :: s' =>
      if p c
      then match star_k p s' k with
           | Some rest => Some rest
           | None => k s
           end
      else k s
  | [] => k []
  end.

(** Backtracking match of [r] at the start of [s]; [k] matches what
    follows [r] and the result is the text left after the whole match. *)
Fixpoint match_k (r : regex) (s : str) (k : str -> option str)
  : option str :=
  match r with
  | Chr p =>
      match s with
      | c :: s' => if p c then k s' else None
      | [] => None
      end
  | Seq r1 r2 => match_k r1 s (fun s' => match_k r2 s' k)
  | Alt r1 r2 =>
      match match_k r1 s k with
      | Some rest => Some rest
      | None => match_k r2 s k
      end
  | Plus p =>
      match s with
      | c :: s' => if p c then star_k p s' k else None
      | [] => None
      end
  end.

Definition re_match (r : regex) (s : str) : option str := match_k r s Some.

(** [re.sub(r, repl, s)]: scan from the left; where [r] matches, emit
    [repl] and go on after the match, otherwise keep the character. *)
Fixpoint re_sub_fuel (fuel : nat) (r : regex) (repl s : str) : str :=
  match s with
  | [] => []
  | c :: s' =>
      match fuel with
      | O => s
      | S fuel' =>
          match re_match r s with
          | Some rest => repl ++ re_sub_fuel fuel' r repl rest
          | None => c :: re_sub_fuel fuel' r repl s'
          end
      end
  end.

Definition re_sub (r : regex) (repl s : str) : str :=
  re_sub_fuel (length s) r repl s.

(** A literal character and a literal word. *)
Definition Lit1 (c : char) : regex := Chr (char_eqb c).

Fixpoint Word (w : str) (tail : regex) : regex :=
  match w with
  | [] => tail
  | c :: w' => Seq (Lit1 c) (Word w' tail)
  end.

Definition not_space (c : char) : bool := negb (py_isspace c).

(** [[^a-z\s]] *)
Definition not_az_space (c : char) : bool := negb (is_az c || py_isspace c).

(** [r"http\S+|www\S+"] *)
Definition re_links : regex :=
  Alt (Word (lit "http") (Plus not_space))
      (Word (lit "www") (Plus not_space)).

(** [r"@\w+"] *)
Definition re_mentions : regex := Seq (Lit1 64) (Plus py_isword).

(** [r"#\w+"] *)
Definition re_hashtags : regex := Seq (Lit1 35) (Plus py_isword).

(** [r"[^a-z\s]"] *)
Definition re_punct : regex := Chr not_az_space.

(** [r"\s+"] *)
Definition re_spaces : regex := Plus py_isspace.

(* ================================================================ *)
(** ** [clean_text] *)

Definition clean_text (text : value) : str :=
  let text := py_lower (py_str text) in
  let text := re_sub re_links [] text in
  let text := re_sub re_mentions [] text in
  let text := re_sub re_hashtags [] text in
  let text := re_sub re_punct [] text in
  let text := py_strip (re_sub re_spaces (lit " ") text) in
  text.

(* ================================================================ *)
(** ** The cleaning steps, each written out as what it does to the text *)

(** Characters are dropped from a place where [starts] holds and on for
    as long as [p] holds; [inside] says that such a run is being dropped. *)
Fixpoint remove_runs (starts : str -> bool) (p : char -> bool)
         (inside : bool) (s : str) : str :=
  match s with
  | [] => []
  | c :: s' =>
      if (inside && p c)%bool then remove_runs starts p true s'
      else if starts s then remove_runs starts p true s'
      else c :: remove_runs starts p false s'
  end.

(** [s] reads [w] and then a character of the class [p]. *)
Definition followed_by (w : str) (p : char -> bool) (s : str) : bool :=
  match strip_prefix w s with
  | Some (c :: _) => p c
  | _ => false
  end.

(** URL removal: from [http] or [www] with a character that is not white
    space after it, up to the next white space. *)
Definition link_start (s : str) : bool :=
  (followed_by (lit "http") not_space s
   || followed_by (lit "www") not_space s)%bool.

Definition remove_links (s : str) : str :=
  remove_runs link_start not_space false s.

(** Removal of [@name] and of [#name]: the mark and the word characters
    after it, when there is at least one. *)
Definition tag_start (mark : char) (s : str) : bool :=
  followed_by [mark] py_isword s.

Definition remove_mentions (s : str) : str :=
  remove_runs (tag_start 64) py_isword false s.

Definition remove_hashtags (s : str) : str :=
  remove_runs (tag_start 35) py_isword false s.

(** Removal of every character outside [a-z] and white space. *)
Definition keep_letters_and_space (s : str) : str :=
  filter (fun c => (is_az c || py_isspace c)%bool) s.

(** Each run of white space becomes one space character. *)
Fixpoint collapse_from (in_run : bool) (s : str) : str :=
  match s with
  | [] => []
  | c :: s' =>
      if py_isspace c
      then if in_run then collapse_from true s'
           else 32 :: collapse_from true s'
      else c :: collapse_from false s'
  end.

Definition collapse_whitespace (s : str) : str := collapse_from false s.

Definition trim (s : str) : str := py_strip s.

(** The steps in the order the code has them: lower-casing first. *)
Definition steps_lower_first (s : str) : str :=
  trim (collapse_whitespace (keep_letters_and_space
    (remove_hashtags (remove_mentions (remove_links (py_lower s)))))).

(** The steps in the order of section 4.2 of the specification:
    lower-casing after the three removals. *)
Definition steps_lower_fourth (s : str) : str :=
  trim (collapse_whitespace (keep_letters_and_space
    (py_lower (remove_hashtags (remove_mentions (remove_links s)))))).

End Text.

(* ================================================================== *)
(** ** [get_sentiment] *)

(** [TextBlob(text).sentiment.polarity], a float supplied by the library. *)
Class TextBlob : Type := {
  polarity : str -> spec_float
}.

Definition float_zero : spec_float := S754_zero false.

Section Sentiment.

Context {F : FloatText} {T : TextBlob}.

Definition get_sentiment (text : value) : str :=
  let polarity := polarity (py_str text) in
  if SFltb float_zero polarity then lit "Positive"
  else if SFltb polarity float_zero then lit "Negative"
  else lit "Neutral".

End Sentiment.

(* ================================================================== *)
(** ** Tables: pandas Series and DataFrame *)

Inductive dtype : Type := object | int64 | float64 | bool_.

Definition dtype_eqb (a b : dtype) : bool :=
  match a, b with
  | object, object | int64, int64 | float64, float64 | bool_, bool_ => true
  | _, _ => false
  end.

Definition Series := list value.

Record Column : Type := mkColumn {
  col_name : str;
  col_dtype : dtype;
  col_values : Series
}.

(** A frame is a list of named columns over one index of [nrows] rows. *)
Record DataFrame : Type := mkFrame {
  nrows : nat;
  df_columns : list Column
}.

(** [len(df)] *)
Definition len (df : DataFrame) : nat := nrows df.

Definition row_of (cs : list Column) (i : nat) : list value :=
  map (fun c => nth i (col_values c) NaN) cs.

(** The rows of a frame, each with one cell per column. *)
Definition df_rows (df : DataFrame) : list (list value) :=
  map (row_of (df_columns df)) (seq 0 (nrows df)).

Fixpoint find_column (key : str) (cs : list Column) : option Column :=
  match cs with
  | [] => None
  | c :: cs' => if str_eqb (col_name c) key then Some c else find_column key cs'
  end.

(** [df[key] = ...] replaces the column of that name or appends a new one. *)
Fixpoint set_column (c : Column) (cs : list Column) : list Column :=
  match cs with
  | [] => [c]
  | c' :: cs' =>
      if str_eqb (col_name c') (col_name c) then c :: cs'
      else c' :: set_column c cs'
  end.

(** [df.select_dtypes(include=["object"]).columns] *)
Definition select_dtypes_object (df : DataFrame) : list str :=
  map col_name (filter (fun c => dtype_eqb (col_dtype c) object) (df_columns df)).

Fixpoint take_columns (keys : list str) (cs : list Column)
  : option (list Column) :=
  match keys with
  | [] => Some []
  | k :: keys' =>
      match find_column k cs, take_columns keys' cs with
      | Some c, Some r => Some (c :: r)
      | _, _ => None
      end
  end.

(** [series == x] for a string [x] *)
Definition series_eq (s : Series) (x : str) : list bool :=
  map (fun v => match v with VStr t => str_eqb t x | _ => false end) s.

(** The entries of [xs] at which the mask is true. *)
Fixpoint select {A : Type} (mask : list bool) (xs : list A) : list A :=
  match mask, xs with
  | b :: mask', x :: xs' =>
      if b then x :: select mask' xs' else select mask' xs'
  | _, _ => []
  end.

(** [sep.join(parts)] *)
Fixpoint join (sep : str) (parts : list str) : str :=
  match parts with
  | [] => []
  | [p] => p
  | p :: parts' => p ++ sep ++ join sep parts'
  end.

(* ------------------------------------------------------------------ *)
(** *** [value_counts] *)

Definition is_nan (v : value) : bool :=
  match v with VFloat S754_nan => true | _ => false end.

Definition value_eqb (a b : value) : bool :=
  match a, b with
  | VStr s, VStr t => str_eqb s t
  | VInt x, VInt y => Z.eqb x y
  | VFloat f, VFloat g => SFeqb f g
  | VBool x, VBool y => Bool.eqb x y
  | _, _ => false
  end.

(** The distinct values in order of first appearance. *)
Fixpoint unique (s : Series) : list value :=
  match s with
  | [] => []
  | v :: s' => v :: filter (fun w => negb (value_eqb v w)) (unique s')
  end.

Definition count_value (v : value) (s : Series) : nat :=
  List.length (filter (value_eqb v) s).

(** Stable insertion into a list ordered by falling count. *)
Fixpoint insert_desc (x : value * nat) (l : list (value * nat))
  : list (value * nat) :=
  match l with
  | [] => [x]
  | y :: l' =>
      if Nat.ltb (snd x) (snd y) then y :: insert_desc x l' else x :: l
  end.

Definition sort_desc (l : list (value * nat)) : list (value * nat) :=
  fold_right insert_desc [] l.

(** [series.value_counts()]: missing values dropped, one entry per distinct
    value with its number of occurrences, the most frequent first. *)
Definition value_counts (s : Series) : list (value * nat) :=
  let s := filter (fun v => negb (is_nan v)) s in
  sort_desc (map (fun k => (k, count_value k s)) (unique s)).

(* ------------------------------------------------------------------ *)
(** *** Delimited files *)

(** A delimited file as the tokenizer reads it: its header and its records
    of text fields.  The uploaded file is given in this form. *)
Record csv : Type := mkCsv {
  header : list str;
  records : list (list str)
}.

(** The spellings [pd.read_csv] takes for a missing value by default. *)
Definition na_values : list str :=
  map lit [ EmptyString; "#N/A"; "#N/A N/A"; "#NA"; "-1.#IND"; "-1.#QNAN";
            "-NaN"; "-nan"; "1.#IND"; "1.#QNAN"; "<NA>"; "N/A"; "NA"; "NULL";
            "NaN"; "None"; "n/a"; "nan"; "null" ]%string.

Definition is_na (field : str) : bool := existsb (str_eqb field) na_values.

(** A field of a column that stays text. *)
Definition text_cell (field : str) : value :=
  if is_na field then NaN else VStr field.

(** A field converted by the parser to a type other than text. *)
Inductive number : Type :=
| NInt (z : Z)
| NFloat (f : spec_float)
| NBool (b : bool).

Definition value_of_number (n : number) : value :=
  match n with
  | NInt z => VInt z
  | NFloat f => VFloat f
  | NBool b => VBool b
  end.

(** The type inference of [pd.read_csv] is the parser's own: whether it
    converts a column of fields, to which type, and what a field of such a
    column converts to.  A column it does not convert stays text.  (A
    converted column can still have type [object]: booleans with a missing
    value among them.) *)
Class Parser : Type := {
  converted : list str -> option dtype;
  parse_field : dtype -> str -> number
}.

Definition transpose_fields (width : nat) (recs : list (list str))
  : list (list str) :=
  map (fun j => map (fun r => nth j r []) recs) (seq 0 width).

(* ------------------------------------------------------------------ *)
(** *** The writer

    [to_csv] hands the header and the rows, as text, to Python's
    [csv.writer], set up with the comma as delimiter, the double quote as
    quote character, minimal quoting, doubled quotes, and the line
    terminator of the platform, taken here to be LF.  A field is put in
    quotes when it holds the delimiter, the quote character or a character
    of the line terminator.  Whether a carriage return alone puts a field
    in quotes depends on the version of Python, and the script pins none:
    Python 3.11 leaves such a field without quotes.  A line of one empty
    field is written as a pair of quotes. *)

Class CsvWriter : Type := {
  quotes_cr : bool
}.

Section Writer.

Context {W : CsvWriter}.

Definition special (c : char) : bool :=
  (N.eqb c 44 || N.eqb c 34 || N.eqb c 10 || (quotes_cr && N.eqb c 13))%bool.

Definition needs_quotes (field : str) : bool := existsb special field.

Definition doubled (c : char) : str := if N.eqb c 34 then [34; 34] else [c].

Definition quoted (field : str) : str := 34 :: flat_map doubled field ++ [34].

Definition write_field (alone : bool) (field : str) : str :=
  if (needs_quotes field
      || (alone && match field with [] => true | _ => false end))%bool
  then quoted field else field.

(** [writer.writerow(row)] *)
Definition writerow (row : list str) : str :=
  join [44] (map (write_field (Nat.eqb (List.length row) 1)) row) ++ [10].

Definition write_csv (file : csv) : str :=
  flat_map writerow (header file :: records file).

End Writer.

(* ------------------------------------------------------------------ *)
(** *** The tokenizer

    The states of the tokenizer of [pd.read_csv] (its C parser) that the
    defaults of [read_csv] reach, and what it does with one character in
    each.  A line ends at LF, at CR and at CR LF; inside quotes they are
    characters of the field.  A quote opens a quoted field only at the start
    of a field; a line that is empty or holds blanks only is skipped.  A
    byte order mark at the start of the file is not modelled. *)

Inductive tokenizer_state : Type :=
| START_RECORD
| WHITESPACE_LINE
| START_FIELD
| IN_FIELD
| IN_QUOTED_FIELD
| QUOTE_IN_QUOTED_FIELD
| EAT_CRNL
| EAT_CRNL_NOP.

(** The lines read, the fields read of the line being read, the
    characters read of the field being read, and the state. *)
Record tokenizer : Type := mkTokenizer {
  tok_lines : list (list str);
  tok_line : list str;
  tok_field : str;
  tok_state : tokenizer_state
}.

Definition goto (s : tokenizer_state) (t : tokenizer) : tokenizer :=
  mkTokenizer (tok_lines t) (tok_line t) (tok_field t) s.

Definition push_char (c : char) (s : tokenizer_state) (t : tokenizer)
  : tokenizer :=
  mkTokenizer (tok_lines t) (tok_line t) (tok_field t ++ [c]) s.

Definition end_field (s : tokenizer_state) (t : tokenizer) : tokenizer :=
  mkTokenizer (tok_lines t) (tok_line t ++ [tok_field t]) [] s.

Definition end_line (s : tokenizer_state) (t : tokenizer) : tokenizer :=
  mkTokenizer (tok_lines t ++ [tok_line t]) [] [] s.

Definition skip_line (s : tokenizer_state) (t : tokenizer) : tokenizer :=
  mkTokenizer (tok_lines t) [] [] s.

(** Space and TAB. *)
Definition is_blank (c : char) : bool := (N.eqb c 32 || N.eqb c 9)%bool.

Definition in_field (t : tokenizer) (c : char) : tokenizer :=
  if N.eqb c 10 then end_line START_RECORD (end_field IN_FIELD t)
  else if N.eqb c 13 then end_field EAT_CRNL t
  else if N.eqb c 44 then end_field START_FIELD t
  else push_char c IN_FIELD t.

Definition start_field (t : tokenizer) (c : char) : tokenizer :=
  if N.eqb c 34 then goto IN_QUOTED_FIELD t else in_field t c.

Definition start_record (t : tokenizer) (c : char) : tokenizer :=
  if N.eqb c 10 then t
  else if N.eqb c 13 then goto EAT_CRNL_NOP t
  else if is_blank c then push_char c WHITESPACE_LINE t
  else start_field t c.

(** Blanks only so far: the line is dropped when it ends so, and is read
    from its start as a line of fields when another character comes. *)
Definition whitespace_line (t : tokenizer) (c : char) : tokenizer :=
  if N.eqb c 10 then skip_line START_RECORD t
  else if N.eqb c 13 then skip_line EAT_CRNL_NOP t
  else if is_blank c then push_char c WHITESPACE_LINE t
  else in_field t c.

Definition in_quoted_field (t : tokenizer) (c : char) : tokenizer :=
  if N.eqb c 34 then goto QUOTE_IN_QUOTED_FIELD t
  else push_char c IN_QUOTED_FIELD t.

Definition quote_in_quoted_field (t : tokenizer) (c : char) : tokenizer :=
  if N.eqb c 34 then push_char c IN_QUOTED_FIELD t else in_field t c.

(** After a CR that ended a line. *)
Definition eat_crnl (t : tokenizer) (c : char) : tokenizer :=
  if N.eqb c 10 then end_line START_RECORD t
  else if N.eqb c 44 then end_field START_FIELD (end_line START_FIELD t)
  else start_record (end_line START_RECORD t) c.

(** After a CR that ended a skipped line. *)
Definition eat_crnl_nop (t : tokenizer) (c : char) : tokenizer :=
  if (N.eqb c 10 || N.eqb c 44)%bool then goto START_RECORD t
  else start_record (goto START_RECORD t) c.

Definition tokenize_char (t : tokenizer) (c : char) : tokenizer :=
  match tok_state t with
  | START_RECORD => start_record t c
  | WHITESPACE_LINE => whitespace_line t c
  | START_FIELD => start_field t c
  | IN_FIELD => in_field t c
  | IN_QUOTED_FIELD => in_quoted_field t c
  | QUOTE_IN_QUOTED_FIELD => quote_in_quoted_field t c
  | EAT_CRNL => eat_crnl t c
  | EAT_CRNL_NOP => eat_crnl_nop t c
  end.

(** The end of the file closes the line being read; inside quotes it is
    an error. *)
Definition handle_eof (t : tokenizer) : option (list (list str)) :=
  match tok_state t with
  | START_RECORD | WHITESPACE_LINE | EAT_CRNL_NOP => Some (tok_lines t)
  | IN_QUOTED_FIELD => None
  | START_FIELD | IN_FIELD | QUOTE_IN_QUOTED_FIELD =>
      Some (tok_lines (end_line START_RECORD (end_field START_RECORD t)))
  | EAT_CRNL => Some (tok_lines (end_line START_RECORD t))
  end.

Definition tokenize (text : str) : option (list (list str)) :=
  handle_eof (fold_left tokenize_char text
                        (mkTokenizer [] [] [] START_RECORD)).

(** The text of a file as its header and its records. *)
Definition parse_csv (text : str) : option csv :=
  match tokenize text with
  | None => None
  | Some [] => Some (mkCsv [] [])
  | Some (names :: recs) => Some (mkCsv names recs)
  end.

Section Csv.

Context {F : FloatText} {P : Parser} {W : CsvWriter}.

(** The text [to_csv] writes for a cell: a missing value is written as
    the empty field, [na_rep] being left at its default. *)
Definition csv_field (v : value) : str :=
  if is_nan v then [] else py_str v.

(** The header and the rows as [to_csv] hands them to the writer. *)
Definition csv_records (df : DataFrame) : csv :=
  {| header := map col_name (df_columns df);
     records := map (map csv_field) (df_rows df) |}.

(** [df.to_csv(index=False)] *)
Definition to_csv (df : DataFrame) : str := write_csv (csv_records df).

(** One column as [pd.read_csv] loads it: a column without rows, and one
    the parser does not convert, is a column of text of type [object]. *)
Definition read_column (name : str) (fields : list str) : Column :=
  match (match fields with [] => None | _ => converted fields end) with
  | None => mkColumn name object (map text_cell fields)
  | Some t =>
      mkColumn name t (map (fun f => value_of_number (parse_field t f)) fields)
  end.

End Csv.

(* ================================================================== *)
(** ** The script: what it renders and how it ends *)

Inductive exn : Type :=
| EmptyDataError
| ParserError
| KeyError (key : str)
| ValueError
| TypeError
| ZeroDivisionError.

Inductive figure : Type :=
| BarChart (bars : list (value * nat * str)) (ylabel xlabel title : str)
| PieChart (wedges : list (value * nat * str))
| LinePlot (points : list (value * nat)) (xlabel ylabel title : str).

(** The calls into Streamlit that put something on the page. *)
Inductive element : Type :=
| st_title (body : str)
| st_markdown (body : str)
| st_error (body : str)
| st_tabs (names : list str)
| st_subheader (body : str)
| st_metric (label : str) (n : nat) (delta : option str)
| st_pyplot (fig : figure)
| st_selectbox (label : str) (options : list str)
| st_dataframe (df : DataFrame) (height : nat)
| st_download_button (label : str) (data : str) (file_name mime : str).
(* [data] is the file before [.encode('utf-8')]. *)

(** A run of the script ends normally, is halted by [st.stop()], or is
    ended by an uncaught exception. *)
Inductive outcome (A : Type) : Type :=
| Done (a : A)
| Stopped
| Raised (e : exn).

Arguments Done {A} a.
Arguments Stopped {A}.
Arguments Raised {A} e.

(** The elements rendered so far, and how the run went on. *)
Definition run (A : Type) : Type := (list element * outcome A)%type.

Definition ret {A : Type} (a : A) : run A := ([], Done a).

Definition bind {A B : Type} (m : run A) (k : A -> run B) : run B :=
  match m with
  | (es, Done a) => let (es', o) := k a in (es ++ es', o)
  | (es, Stopped) => (es, Stopped)
  | (es, Raised e) => (es, Raised e)
  end.

Definition render (e : element) : run unit := ([e], Done tt).
Definition raise {A : Type} (e : exn) : run A := ([], Raised e).
(** [st.stop()] *)
Definition st_stop {A : Type} : run A := ([], Stopped).

Declare Scope run_scope.
Delimit Scope run_scope with run.
Notation "x <- m ;; k" := (bind m (fun x => k))
  (at level 61, m at next level, right associativity) : run_scope.
Notation "m ;; k" := (bind m (fun _ => k))
  (at level 61, right associativity) : run_scope.

Local Open Scope run_scope.

(** [df[key]] *)
Definition getitem (df : DataFrame) (key : str) : run Series :=
  match find_column key (df_columns df) with
  | Some c => ret (col_values c)
  | None => raise (KeyError key)
  end.

(** [df[key] = s] for a series of strings; pandas refuses a series of
    another length than the frame. *)
Definition setitem (df : DataFrame) (key : str) (s : Series) : run DataFrame :=
  if Nat.eqb (List.length s) (nrows df)
  then ret {| nrows := nrows df;
              df_columns := set_column (mkColumn key object s) (df_columns df) |}
  else raise ValueError.

(** [df[mask]] for a boolean mask: the rows at which the mask is true. *)
Definition getitem_mask (df : DataFrame) (mask : list bool) : run DataFrame :=
  if Nat.eqb (List.length mask) (nrows df)
  then ret {| nrows := List.length (select mask (seq 0 (nrows df)));
              df_columns :=
                map (fun c => mkColumn (col_name c) (col_dtype c)
                                       (select mask (col_values c)))
                    (df_columns df) |}
  else raise ValueError.

(** [series.apply(f)] for an [f] that returns a string *)
Definition series_apply (f : value -> str) (s : Series) : Series :=
  map (fun v => VStr (f v)) s.

(** The colour of the [i]-th bar or wedge: the list is gone through in
    order and started again when it runs out. *)
Definition color_at (colors : list str) (i : nat) : str :=
  nth (Nat.modulo i (List.length colors)) colors [].

Definition colored (colors : list str) (counts : list (value * nat))
  : list (value * nat * str) :=
  map (fun ic => (snd ic, color_at colors (fst ic)))
      (combine (seq 0 (List.length counts)) counts).

Definition chart_colors : list str := [lit "green"; lit "grey"; lit "red"].

Definition page_title : str := 128172 :: lit " Sentiment Analysis Dashboard".

Definition intro : str := lit "
Analyze sentiment of your dataset.
- Upload CSV with text columns
- See **positive, neutral, negative** sentiment
- Visualize with **Bar chart, Pie chart, and Count graph**
- Filter and download filtered data
".

(** The script pins no version of pandas, and [astype(str)] differs
    between versions: pandas 2 turns a missing value into the text [nan],
    pandas 3 leaves it missing. *)
Class Pandas : Type := {
  astype_str_keeps_missing : bool
}.

(** Some row has a missing value in one of the columns [cs]. *)
Definition any_missing (cs : list Column) (n : nat) : bool :=
  existsb (fun i => existsb is_nan (row_of cs i)) (seq 0 n).

Section Script.

Context {U : Unicode} {F : FloatText} {T : TextBlob} {P : Parser}
        {V : Pandas} {W : CsvWriter}.

(** [pd.read_csv(file)]: the columns take the header's names and the
    parser's types.  A file without a header line is refused.  The first
    record, when it is longer than the header, sets the number of fields
    expected, and its leading fields are then the index and no column; a
    record with more fields than expected is refused, a shorter one is
    filled up with empty fields.  The names are taken as they are: pandas
    renames a repeated or empty one, which is not modelled. *)
Definition read_csv (file : csv) : run DataFrame :=
  match header file with
  | [] => raise EmptyDataError
  | names =>
      let width := List.length names in
      let expected := match records file with
                      | [] => width
                      | first :: _ => Nat.max width (List.length first)
                      end in
      if forallb (fun r => Nat.leb (List.length r) expected) (records file)
      then ret {| nrows := List.length (records file);
                  df_columns :=
                    map (fun nf => read_column (fst nf) (snd nf))
                        (combine names
                           (skipn (expected - width)
                              (transpose_fields expected (records file)))) |}
      else raise ParserError
  end.

(** [pd.read_csv] on the text of a file. *)
Definition read_csv_text (text : str) : run DataFrame :=
  match parse_csv text with
  | Some file => read_csv file
  | None => raise ParserError
  end.

(** [df[text_cols].astype(str).agg(" ".join, axis=1)]: row by row, the
    texts of the cells of the text columns with a space between them; for a
    table without rows, the empty series.  Where [astype(str)] leaves a
    missing value as it is, [" ".join] meets a float in the row and raises
    a type error.  The names in [text_cols] are names of columns of [df],
    so the key error does not arise. *)
Definition combined_text (df : DataFrame) (text_cols : list str)
  : run Series :=
  match take_columns text_cols (df_columns df) with
  | Some cs =>
      if (astype_str_keeps_missing && any_missing cs (nrows df))%bool
      then raise TypeError
      else ret (map (fun i => VStr (join (lit " ") (map py_str (row_of cs i))))
                    (seq 0 (nrows df)))
  | None => raise (KeyError [])
  end.

(** Lines 36 to 39: the text columns, or the error and the halt. *)
Definition text_columns (df : DataFrame) : run (list str) :=
  let text_cols := select_dtypes_object df in
  (if Nat.eqb (List.length text_cols) 0
   then render (st_error (lit "No text columns found in your CSV.")) ;;
        st_stop
   else ret tt) ;;
  ret text_cols.

(** Lines 42 to 70: the three derived columns. *)
Definition classify (df : DataFrame) (text_cols : list str)
  : run DataFrame :=
  combined <- combined_text df text_cols ;;
  df <- setitem df (lit "Combined_Text") combined ;;
  combined <- getitem df (lit "Combined_Text") ;;
  df <- setitem df (lit "Cleaned_Text") (series_apply clean_text combined) ;;
  cleaned <- getitem df (lit "Cleaned_Text") ;;
  setitem df (lit "Sentiment") (series_apply get_sentiment cleaned).

(** [len(df[df["Sentiment"] == label])] *)
Definition count_label (df : DataFrame) (label : str) : run nat :=
  sentiment <- getitem df (lit "Sentiment") ;;
  sub <- getitem_mask df (series_eq sentiment label) ;;
  ret (len sub).

(** [f"{round(n/total*100,1)}%"]: the division raises when [total] is 0. *)
Definition percent (n total : nat) : run str :=
  if Nat.eqb total 0 then raise ZeroDivisionError
  else ret (percent_text n total ++ lit "%").

(** Tab 1 *)
Definition summary_tab (total pos neu neg : nat) : run unit :=
  render (st_subheader (128202 :: lit " Sentiment Summary")) ;;
  render (st_metric (lit "Total Rows") total None) ;;
  delta <- percent pos total ;;
  render (st_metric (lit "Positive") pos (Some delta)) ;;
  delta <- percent neu total ;;
  render (st_metric (lit "Neutral") neu (Some delta)) ;;
  delta <- percent neg total ;;
  render (st_metric (lit "Negative") neg (Some delta)).

(** Tab 2 *)
Definition charts_tab (df : DataFrame) : run unit :=
  render (st_subheader (128202 :: lit " Sentiment Charts")) ;;
  sentiment <- getitem df (lit "Sentiment") ;;
  render (st_pyplot (BarChart (colored chart_colors (value_counts sentiment))
                              (lit "Count") (lit "Sentiment")
                              (lit "Sentiment Distribution"))) ;;
  sentiment <- getitem df (lit "Sentiment") ;;
  render (st_pyplot (PieChart (colored chart_colors (value_counts sentiment)))) ;;
  render (st_subheader (128200 :: lit " Count Graph")) ;;
  sentiment <- getitem df (lit "Sentiment") ;;
  let sentiment_counts := value_counts sentiment in
  render (st_pyplot (LinePlot sentiment_counts (lit "Sentiment") (lit "Count")
                              (lit "Sentiment Count"))).

Definition choices : list str :=
  [lit "All"; lit "Positive"; lit "Neutral"; lit "Negative"].

(** Lines 132 to 135 *)
Definition filtered (df : DataFrame) (sentiment_choice : str)
  : run DataFrame :=
  if negb (str_eqb sentiment_choice (lit "All"))
  then sentiment <- getitem df (lit "Sentiment") ;;
       getitem_mask df (series_eq sentiment sentiment_choice)
  else ret df.

(** Tab 3 *)
Definition filter_tab (df : DataFrame) (sentiment_choice : str) : run unit :=
  render (st_subheader (128269 :: lit " Filter Rows")) ;;
  render (st_selectbox (lit "Select Sentiment") choices) ;;
  filtered_df <- filtered df sentiment_choice ;;
  render (st_dataframe filtered_df 300) ;;
  render (st_download_button
            (128229 :: lit " Download Filtered Data as CSV")
            (to_csv filtered_df)
            (lit "filtered_reviews.csv") (lit "text/csv")).

(** Lines 31 to 70: the uploaded table with its three derived columns. *)
Definition classified_table (file : csv) : run DataFrame :=
  df <- read_csv file ;;
  text_cols <- text_columns df ;;
  classify df text_cols.

(** Everything the script does once a file is uploaded. *)
Definition dashboard (file : csv) (sentiment_choice : str) : run unit :=
  df <- classified_table file ;;
  let total := len df in
  pos <- count_label df (lit "Positive") ;;
  neg <- count_label df (lit "Negative") ;;
  neu <- count_label df (lit "Neutral") ;;
  render (st_tabs [lit "Summary"; lit "Charts"; lit "Filtered Data"]) ;;
  summary_tab total pos neu neg ;;
  charts_tab df ;;
  filter_tab df sentiment_choice.

(** One run of [app.py]: [uploaded_file] is what the uploader holds and
    [sentiment_choice] what the select box is set to.  The page
    configuration and the uploader itself are not recorded among the
    elements. *)
Definition script (uploaded_file : option csv) (sentiment_choice : str)
  : run unit :=
  render (st_title page_title) ;;
  render (st_markdown intro) ;;
  match uploaded_file with
  | Some file => dashboard file sentiment_choice
  | None => ret tt
  end.

End Script.

(* ================================================================== *)
(** ** What the properties are stated with *)

(** What a continuation leaves is no longer than what it was given. *)
Definition shrinking (k : str -> option str) : Prop :=
  forall s rest, k s = Some rest -> (List.length rest <= List.length s)%nat.

(** A word: one lowercase letter or more. *)
Definition word (w : str) : Prop :=
  w <> [] /\ Forall (fun c => is_az c = true) w.

(** Words of lowercase letters with one space between two of them. *)
Definition clean_form (s : str) : Prop :=
  exists ws : list str, Forall word ws /\ s = join (lit " ") ws.

Definition letter_or_space (c : char) : Prop := is_az c = true \/ c = 32.

(** No two space characters in a row. *)
Definition single_spaced (s : str) : Prop :=
  forall l1 l2 : str, s <> l1 ++ 32 :: 32 :: l2.



Definition labels : list str :=
  [lit "Positive"; lit "Neutral"; lit "Negative"].

Definition count_true (mask : list bool) : nat :=
  List.length (filter (fun b : bool => b) mask).

Definition is_string (v : value) : Prop := exists t : str, v = VStr t.

(** Counts fall along the list. *)
Definition falling (a b : value * nat) : Prop := (snd b <= snd a)%nat.

(** The colour section 4.5 of the specification gives each label. *)
Definition label_color (label : value) : str :=
  match label with
  | VStr t =>
      if str_eqb t (lit "Positive") then lit "green"
      else if str_eqb t (lit "Neutral") then lit "grey"
      else if str_eqb t (lit "Negative") then lit "red"
      else []
  | _ => []
  end.

(** Every bar and every wedge of the figure has the colour of its label. *)
Definition colored_by_label (fig : figure) : Prop :=
  match fig with
  | BarChart bars _ _ _ =>
      Forall (fun b => snd b = label_color (fst (fst b))) bars
  | PieChart wedges =>
      Forall (fun w => snd w = label_color (fst (fst w))) wedges
  | LinePlot _ _ _ _ => True
  end.

(** The figures a run has drawn, and the labels along its line plots. *)
Definition figures_of (r : run unit) : list figure :=
  flat_map (fun e => match e with st_pyplot fig => [fig] | _ => [] end) (fst r).

Definition line_order (r : run unit) : list (list value) :=
  flat_map (fun fig => match fig with
                       | LinePlot points _ _ _ => [map fst points]
                       | _ => []
                       end) (figures_of r).

Section Fields.

Context {W : CsvWriter}.

(** A carriage return in a field the writer does not put in quotes. *)
Definition bare_cr (field : str) : bool :=
  (existsb (N.eqb 13) field && negb (needs_quotes field))%bool.

(** No column name and no cell of the file is such a field. *)
Definition no_bare_cr (file : csv) : bool :=
  forallb (fun row => negb (existsb bare_cr row)) (header file :: records file).

End Fields.





Section Derived.

Context {U : Unicode} {F : FloatText} {T : TextBlob} {P : Parser}
        {V : Pandas} {W : CsvWriter}.

(** The three columns [classify] sets, from the combined text. *)
Definition derived_columns (combined : Series) (cs : list Column)
: list Column :=
let cleaned := series_apply clean_text combined in
set_column (mkColumn (lit "Sentiment") object
                     (series_apply get_sentiment cleaned))
  (set_column (mkColumn (lit "Cleaned_Text") object cleaned)
    (set_column (mkColumn (lit "Combined_Text") object combined) cs)).


(** The filtered table, exported and loaded again: the rows exported and
    the rows that come back. *)
Definition export_reload (file : csv) (sentiment_choice : str)
: run (DataFrame * DataFrame) :=
df <- classified_table file ;;
filtered_df <- filtered df sentiment_choice ;;
back <- read_csv_text (to_csv filtered_df) ;;
ret (filtered_df, back).

End Derived.

(* ================================================================== *)
(** ** Stand-ins for the libraries, for running the script on examples *)

(** A database that knows no cased letter, white space or alphanumeric
    character outside ASCII. *)
Definition ascii_only : Unicode :=
  {| unicode_lower := map ascii_lower;
     unicode_isspace := fun _ => false;
     unicode_isalnum := fun _ => false |}.

(** Percentages cut to whole numbers; a finite float printed as its
    mantissa and exponent. *)
Definition whole_percent : FloatText :=
  {| repr_finite := fun s m e =>
       (if s then lit "-" else []) ++ str_of_Z (Zpos m) ++ lit "p"
       ++ str_of_Z e;
     percent_text := fun n total =>
       str_of_Z (Z.of_nat (Nat.div (n * 100) total)) ++ lit ".0" |}.

(** A scorer that knows two words. *)
Definition two_words : TextBlob :=
  {| polarity := fun text =>
       if str_eqb text (lit "good") then S754_finite false 1 0
       else if str_eqb text (lit "bad") then S754_finite true 1 0
       else S754_zero false |}.

(** A parser that knows whole numbers written in digits: a column of such
    fields is a column of integers, every other column is text. *)
Definition digits_value (field : str) : Z :=
  fold_left (fun acc c => (acc * 10 + Z.of_N (c - 48))%Z) field 0%Z.

Definition is_digits (field : str) : bool :=
  (negb (is_na field) && forallb is_digit field)%bool.

Definition whole_numbers : Parser :=
  {| converted := fun fields =>
       if forallb is_digits fields then Some int64 else None;
     parse_field := fun _ field => NInt (digits_value field) |}.

(** The two behaviours of [astype(str)]. *)
Definition pandas2 : Pandas := {| astype_str_keeps_missing := false |}.
Definition pandas3 : Pandas := {| astype_str_keeps_missing := true |}.

(** The two behaviours of [csv.writer]. *)
Definition cr_unquoted : CsvWriter := {| quotes_cr := false |}.
Definition cr_quoted : CsvWriter := {| quotes_cr := true |}.






(** Example uploads. *)
Definition spec_example : str :=
  lit "Check this out http://x.co #great @bob!!!".
Definition upper_link : str := lit "Visit HTTP://X.CO".

Definition two_bad_one_good : csv :=
  mkCsv [lit "text"] [[lit "bad"]; [lit "bad"]; [lit "good"]].
Definition two_good_one_bad : csv :=
  mkCsv [lit "text"] [[lit "good"]; [lit "good"]; [lit "bad"]].
Definition numbers_only : csv :=
  mkCsv [lit "id"; lit "n"] [[lit "1"; lit "20"]; [lit "2"; lit "30"]].

(* ================================================================== *)
(** ** Further notions and examples *)

(** One text is made of characters of the other, in their order. *)
Inductive subseq : str -> str -> Prop :=
| subseq_nil : subseq [] []
| subseq_keep (c : char) (s t : str) : subseq s t -> subseq (c :: s) (c :: t)
| subseq_drop (c : char) (s t : str) : subseq s t -> subseq s (c :: t).

(** The letters a to z of a text. *)
Definition letters (s : str) : str := filter is_az s.

(** The text from each of its places on. *)
Fixpoint suffixes (s : str) : list str :=
  s :: match s with
       | [] => []
       | _ :: s' => suffixes s'
       end.

(** Some place in the text is a start in the sense of [starts]. *)
Definition has_start (starts : str -> bool) (s : str) : bool :=
  existsb starts (suffixes s).

(** The names of the columns [classify] sets. *)
Definition derived_names : list str :=
  [lit "Combined_Text"; lit "Cleaned_Text"; lit "Sentiment"].

(** The name is not among the names. *)
Definition absent (names : list str) (name : str) : bool :=
  negb (existsb (str_eqb name) names).

(** The columns of type [object]. *)
Definition text_columns_of (df : DataFrame) : list Column :=
  filter (fun c => dtype_eqb (col_dtype c) object) (df_columns df).

(** Some row has a missing value in a text column, as line 42 meets it. *)
Definition missing_text (df : DataFrame) : bool :=
  match take_columns (select_dtypes_object df) (df_columns df) with
  | Some cs => any_missing cs (nrows df)
  | None => false
  end.

(** Further example uploads and a further stand-in. *)
Definition one_missing : csv :=
  mkCsv [lit "id"; lit "text"] [[lit "1"; lit "good"]; [lit "2"; lit "NA"]].

(** A scorer whose score is not a number. *)
Definition no_score : TextBlob := {| polarity := fun _ => S754_nan |}.

Definition no_header : csv := mkCsv [] [[lit "text"]].

(** A cell with a carriage return between two letters. *)
Definition cr_and_good : csv :=
  mkCsv [lit "text"] [[[97; 13; 98]]; [lit "good"]].

(* ================================================================== *)
(** * Properties *)

(** ** Strings *)

Lemma char_eqb_eq (a b : char) : char_eqb a b = true <-> a = b.
Proof. apply N.eqb_eq. Qed.

Lemma str_eqb_eq (a b : str) : str_eqb a b = true <-> a = b.
Proof.
  revert b; induction a as [|x a IH]; intros [|y b]; simpl;
    try (split; [discriminate | congruence]); try tauto.
  rewrite andb_true_iff, char_eqb_eq, IH.
  split; [intros [-> ->]; reflexivity | intros H; inversion H; auto].
Qed.

Lemma str_eqb_refl (a : str) : str_eqb a a = true.
Proof. apply str_eqb_eq; reflexivity. Qed.

Lemma drop_while_length (p : char -> bool) (s : str) :
  (List.length (drop_while p s) <= List.length s)%nat.
Proof.
  induction s as [|c s IH]; simpl; [lia|].
  destruct (p c); simpl; lia.
Qed.

(** ** The matcher *)

Section Matcher.

Context {U : Unicode}.


Lemma shrinking_Some : shrinking Some.
Proof. intros s rest H; inversion H; lia. Qed.

Lemma star_k_shorter (p : char -> bool) (k : str -> option str) :
  shrinking k -> shrinking (fun s => star_k p s k).
Proof.
  intros Hk s; induction s as [|c s IH]; intros rest; simpl.
  - apply Hk.
  - destruct (p c); [|apply Hk].
    destruct (star_k p s k) as [r|] eqn:E.
    + intros H; inversion H; subst. specialize (IH _ eq_refl). lia.
    + apply Hk.
Qed.

(** A match uses up at least one character. *)
Lemma match_k_shorter (r : regex) :
  forall (k : str -> option str) (s rest : str),
    shrinking k -> match_k r s k = Some rest ->
    (List.length rest < List.length s)%nat.
Proof.
  induction r as [p | r1 IH1 r2 IH2 | r1 IH1 r2 IH2 | p];
    intros k s rest Hk; simpl.
  - destruct s as [|c s]; [discriminate|].
    destruct (p c); [|discriminate].
    intros H; apply Hk in H; simpl; lia.
  - intros H. apply IH1 in H; [exact H|].
    intros s' rest' H'. apply IH2 in H'; [lia | exact Hk].
  - destruct (match_k r1 s k) as [x|] eqn:E.
    + intros H; inversion H; subst. eapply IH1; eauto.
    + intros H. eapply IH2; eauto.
  - destruct s as [|c s]; [discriminate|].
    destruct (p c); [|discriminate].
    intros H. apply (star_k_shorter p k Hk) in H. simpl; lia.
Qed.

Lemma re_match_shorter (r : regex) (s rest : str) :
  re_match r s = Some rest -> (List.length rest < List.length s)%nat.
Proof. apply match_k_shorter, shrinking_Some. Qed.

(** Fuel beyond the length of the text changes nothing. *)
Lemma re_sub_fuel_enough (r : regex) (repl : str) :
  forall (n : nat) (s : str) (fuel : nat),
    (List.length s <= n)%nat -> (List.length s <= fuel)%nat ->
    re_sub_fuel fuel r repl s = re_sub_fuel (List.length s) r repl s.
Proof.
  induction n as [|n IH]; intros s fuel Hn Hf.
  - destruct s; [destruct fuel; reflexivity | simpl in Hn; lia].
  - destruct s as [|c s]; [destruct fuel; reflexivity|].
    destruct fuel as [|fuel]; [simpl in Hf; lia|].
    simpl in Hn, Hf. cbn [List.length re_sub_fuel].
    destruct (re_match r (c :: s)) as [rest|] eqn:E.
    + apply re_match_shorter in E; simpl in E.
      rewrite (IH rest fuel), (IH rest (List.length s)); (reflexivity || lia).
    + rewrite (IH s fuel); (reflexivity || lia).
Qed.

Lemma re_sub_nil (r : regex) (repl : str) : re_sub r repl [] = [].
Proof. reflexivity. Qed.

(** The scan, one step at a time. *)
Lemma re_sub_cons (r : regex) (repl : str) (c : char) (s : str) :
  re_sub r repl (c :: s) =
  match re_match r (c :: s) with
  | Some rest => repl ++ re_sub r repl rest
  | None => c :: re_sub r repl s
  end.
Proof.
  unfold re_sub. cbn [List.length re_sub_fuel].
  destruct (re_match r (c :: s)) as [rest|] eqn:E; [|reflexivity].
  apply re_match_shorter in E; simpl in E.
  rewrite (re_sub_fuel_enough r repl (List.length s) rest (List.length s));
    (reflexivity || lia).
Qed.

Lemma star_k_Some (p : char -> bool) (s : str) :
  star_k p s Some = Some (drop_while p s).
Proof.
  induction s as [|c s IH]; simpl; [reflexivity|].
  destruct (p c); [rewrite IH|]; reflexivity.
Qed.

Lemma match_k_Word (w : str) (tail : regex) :
  forall (s : str) (k : str -> option str),
    match_k (Word w tail) s k =
    match strip_prefix w s with
    | Some t => match_k tail t k
    | None => None
    end.
Proof.
  induction w as [|c w IH]; intros s k; simpl; [reflexivity|].
  destruct s as [|d s]; [reflexivity|].
  destruct (char_eqb c d); [apply IH | reflexivity].
Qed.

(** A literal and then a greedy class: what [re_match] leaves. *)
Lemma re_match_Word_Plus (w : str) (p : char -> bool) (s : str) :
  re_match (Word w (Plus p)) s =
  match strip_prefix w s with
  | Some (c :: t) => if p c then Some (drop_while p t) else None
  | _ => None
  end.
Proof.
  unfold re_match. rewrite match_k_Word.
  destruct (strip_prefix w s) as [[|c t]|]; simpl; try reflexivity.
  destruct (p c); [apply star_k_Some | reflexivity].
Qed.

(** *** Substitution by the empty string as the removal of runs *)

Lemma remove_runs_inside (starts : str -> bool) (p : char -> bool) (s : str) :
  remove_runs starts p true s = remove_runs starts p false (drop_while p s).
Proof.
  induction s as [|c s IH]; simpl; [reflexivity|].
  destruct (p c) eqn:E; simpl; [exact IH | reflexivity].
Qed.

Lemma re_sub_remove_runs (r : regex) (starts : str -> bool) (p : char -> bool) :
  (forall s, re_match r s =
             if starts s then Some (drop_while p (tl s)) else None) ->
  forall s, re_sub r [] s = remove_runs starts p false s.
Proof.
  intros Hr s.
  remember (List.length s) as n eqn:Hn.
  revert s Hn; induction n as [n IH] using lt_wf_ind; intros s Hn.
  destruct s as [|c s]; [reflexivity|].
  rewrite re_sub_cons, Hr. cbn [remove_runs andb tl].
  destruct (starts (c :: s)).
  - rewrite remove_runs_inside. simpl.
    apply (IH (List.length (drop_while p s))); [|reflexivity].
    subst n; simpl. pose proof (drop_while_length p s); lia.
  - f_equal. apply (IH (List.length s)); [subst n; simpl; lia | reflexivity].
Qed.

Lemma strip_prefix_Some (w s t : str) :
  strip_prefix w s = Some t -> s = w ++ t.
Proof.
  revert s; induction w as [|c w IH]; intros s; simpl.
  - intros H; inversion H; reflexivity.
  - destruct s as [|d s]; [discriminate|].
    destruct (char_eqb c d) eqn:E; [|discriminate].
    apply char_eqb_eq in E; subst d.
    intros H; apply IH in H; subst s; reflexivity.
Qed.

Lemma drop_while_app (p : char -> bool) (w t : str) :
  forallb p w = true -> drop_while p (w ++ t) = drop_while p t.
Proof.
  induction w as [|c w IH]; simpl; [reflexivity|].
  destruct (p c); simpl; [exact IH | discriminate].
Qed.

(** When the characters of the literal after its first are of the class,
    the match ends where the run of the class ends. *)
Lemma re_match_run (a : char) (w : str) (p : char -> bool) (s : str) :
  forallb p w = true ->
  re_match (Word (a :: w) (Plus p)) s =
  if followed_by (a :: w) p s then Some (drop_while p (tl s)) else None.
Proof.
  intros Hw. rewrite re_match_Word_Plus. unfold followed_by.
  destruct (strip_prefix (a :: w) s) as [[|c t]|] eqn:E; try reflexivity.
  destruct (p c) eqn:Ec; [|reflexivity].
  apply strip_prefix_Some in E; subst s. cbn [app tl].
  rewrite (drop_while_app p w (c :: t) Hw). simpl. rewrite Ec. reflexivity.
Qed.

Lemma re_match_links (s : str) :
  re_match re_links s =
  if link_start s then Some (drop_while not_space (tl s)) else None.
Proof.
  unfold re_links, link_start.
  change (re_match (Alt ?a ?b) s)
    with (match re_match a s with Some r => Some r | None => re_match b s end).
  pose proof (re_match_run 104 (lit "ttp") not_space s eq_refl) as H1.
  pose proof (re_match_run 119 (lit "ww") not_space s eq_refl) as H2.
  change (104 :: lit "ttp") with (lit "http") in H1.
  change (119 :: lit "ww") with (lit "www") in H2.
  rewrite H1, H2.
  destruct (followed_by (lit "http") not_space s); reflexivity.
Qed.

Lemma re_match_tag (mark : char) (s : str) :
  re_match (Seq (Lit1 mark) (Plus py_isword)) s =
  if tag_start mark s then Some (drop_while py_isword (tl s)) else None.
Proof.
  change (Seq (Lit1 mark) (Plus py_isword)) with (Word [mark] (Plus py_isword)).
  apply re_match_run. reflexivity.
Qed.

Lemma re_sub_links (s : str) : re_sub re_links [] s = remove_links s.
Proof. apply re_sub_remove_runs, re_match_links. Qed.

Lemma re_sub_mentions (s : str) : re_sub re_mentions [] s = remove_mentions s.
Proof. apply re_sub_remove_runs, re_match_tag. Qed.

Lemma re_sub_hashtags (s : str) : re_sub re_hashtags [] s = remove_hashtags s.
Proof. apply re_sub_remove_runs, re_match_tag. Qed.

Lemma re_sub_punct (s : str) :
  re_sub re_punct [] s = keep_letters_and_space s.
Proof.
  induction s as [|c s IH]; [reflexivity|].
  rewrite re_sub_cons. unfold re_punct, re_match. cbn [match_k].
  unfold not_az_space, keep_letters_and_space. cbn [filter].
  destruct (is_az c || py_isspace c)%bool; simpl.
  - f_equal. exact IH.
  - exact IH.
Qed.

Lemma collapse_from_run (s : str) :
  collapse_from true s = collapse_from false (drop_while py_isspace s).
Proof.
  induction s as [|c s IH]; simpl; [reflexivity|].
  destruct (py_isspace c) eqn:E; [exact IH|].
  simpl. rewrite E. reflexivity.
Qed.

Lemma re_sub_spaces (s : str) :
  re_sub re_spaces (lit " ") s = collapse_whitespace s.
Proof.
  unfold collapse_whitespace.
  remember (List.length s) as n eqn:Hn.
  revert s Hn; induction n as [n IH] using lt_wf_ind; intros s Hn.
  destruct s as [|c s]; [reflexivity|].
  rewrite re_sub_cons. unfold re_spaces, re_match. cbn [match_k collapse_from].
  destruct (py_isspace c).
  - rewrite star_k_Some, collapse_from_run.
    change (lit " ") with [32]. cbn [app]. f_equal.
    apply (IH (List.length (drop_while py_isspace s))); [|reflexivity].
    subst n; simpl. pose proof (drop_while_length py_isspace s); lia.
  - f_equal. apply (IH (List.length s)); [subst n; simpl; lia | reflexivity].
Qed.

End Matcher.

Section Cleaning.

Context {U : Unicode} {F : FloatText}.

(** The regular expressions of [clean_text] do what the seven steps say,
    with the lower-casing done first. *)
Lemma clean_text_steps (text : value) :
  clean_text text = steps_lower_first (py_str text).
Proof.
  unfold clean_text, steps_lower_first, trim.
  rewrite re_sub_links, re_sub_mentions, re_sub_hashtags, re_sub_punct,
    re_sub_spaces.
  reflexivity.
Qed.

End Cleaning.


Section Shape.

Context {U : Unicode}.


Lemma space_is_space : py_isspace 32 = true.
Proof. reflexivity. Qed.

Lemma drop_while_split (p : char -> bool) (s : str) :
  exists pre, s = pre ++ drop_while p s /\ forallb p pre = true.
Proof.
  induction s as [|c s [pre [H1 H2]]]; simpl.
  - exists []; split; reflexivity.
  - destruct (p c) eqn:E.
    + exists (c :: pre); simpl. rewrite E, H2. split; [f_equal; exact H1 | reflexivity].
    + exists []; split; reflexivity.
Qed.

Lemma drop_while_head (p : char -> bool) (s : str) (c : char) (r : str) :
  drop_while p s = c :: r -> p c = false.
Proof.
  induction s as [|d s IH]; simpl; [discriminate|].
  destruct (p d) eqn:E; [exact IH|].
  intros H; inversion H; subst; exact E.
Qed.

(** [strip] cuts a piece out of the text: what comes before and after the
    piece is white space, and the piece neither starts nor ends with it. *)
Lemma py_strip_split (s : str) :
  exists pre post,
    s = pre ++ py_strip s ++ post /\
    (forall c r, py_strip s = c :: r -> py_isspace c = false) /\
    (forall l c, py_strip s = l ++ [c] -> py_isspace c = false).
Proof.
  unfold py_strip, lstrip.
  destruct (drop_while_split py_isspace s) as [pre [H1 _]].
  set (y := drop_while py_isspace s) in *.
  destruct (drop_while_split py_isspace (rev y)) as [post [H2 Hpost]].
  set (t := drop_while py_isspace (rev y)) in *.
  assert (Hy : y = rev t ++ rev post).
  { rewrite <- (rev_involutive y), H2, rev_app_distr. reflexivity. }
  exists pre, (rev post). split; [rewrite <- Hy; exact H1|]. split.
  - intros c r Hc.
    destruct t as [|d t'] eqn:Et using rev_ind.
    + discriminate.
    + clear IHt'. rewrite rev_app_distr in Hc. simpl in Hc.
      inversion Hc; subst d.
      rewrite rev_app_distr in Hy. simpl in Hy.
      apply (drop_while_head py_isspace s c _ Hy).
  - intros l c Hc.
    assert (Ht : t = c :: rev l).
    { rewrite <- (rev_involutive t), Hc, rev_app_distr. reflexivity. }
    apply (drop_while_head py_isspace (rev y) c _ Ht).
Qed.

Lemma collapse_chars (s : str) :
  Forall (fun c => is_az c = true \/ py_isspace c = true) s ->
  forall b, Forall letter_or_space (collapse_from b s).
Proof.
  induction 1 as [|c s Hc Hs IH]; intros b; simpl; [constructor|].
  destruct (py_isspace c) eqn:E.
  - destruct b; [apply IH|]. constructor; [right; reflexivity | apply IH].
  - constructor; [|apply IH].
    destruct Hc as [Hc|Hc]; [left; exact Hc | congruence].
Qed.

(** Inside a run of white space nothing is written until the run ends. *)
Lemma collapse_true_head (s : str) (r : str) :
  collapse_from true s <> 32 :: r.
Proof.
  induction s as [|c s IH]; simpl; [discriminate|].
  destruct (py_isspace c) eqn:E; [exact IH|].
  intros H; inversion H; subst c. rewrite space_is_space in E; discriminate.
Qed.

Lemma single_spaced_cons (c : char) (s : str) :
  single_spaced s -> (c = 32 -> forall r, s <> 32 :: r) ->
  single_spaced (c :: s).
Proof.
  intros Hs Hc [|d l1] l2 H; simpl in H; inversion H; subst.
  - eapply Hc; eauto.
  - eapply Hs; eauto.
Qed.

Lemma collapse_single_spaced (s : str) (b : bool) :
  single_spaced (collapse_from b s).
Proof.
  revert b; induction s as [|c s IH]; intros b; simpl.
  - intros [|? ?] ?; discriminate.
  - destruct (py_isspace c) eqn:E.
    + destruct b; [apply IH|].
      apply single_spaced_cons; [apply IH|].
      intros _ r. apply collapse_true_head.
    + apply single_spaced_cons; [apply IH|].
      intros ->. rewrite space_is_space in E; discriminate.
Qed.

Lemma single_spaced_infix (pre s post : str) :
  single_spaced (pre ++ s ++ post) -> single_spaced s.
Proof.
  intros H l1 l2 Hs. apply (H (pre ++ l1) (l2 ++ post)).
  rewrite Hs, <- !app_assoc. reflexivity.
Qed.

Lemma join_cons_cons (sep p q : str) (ps : list str) :
  join sep (p :: q :: ps) = p ++ sep ++ join sep (q :: ps).
Proof. reflexivity. Qed.

(** Letters and single spaces, with a letter at both ends, are words
    joined by one space. *)
Lemma clean_form_intro (n : nat) :
  forall s : str,
    (List.length s <= n)%nat ->
    Forall letter_or_space s -> single_spaced s ->
    (forall r, s <> 32 :: r) -> (forall l, s <> l ++ [32]) ->
    clean_form s.
Proof.
  induction n as [|n IH]; intros s Hn Hc Hs Hh Hl.
  - destruct s; [|simpl in Hn; lia]. exists []; split; [constructor | reflexivity].
  - destruct s as [|c s]; [exists []; split; [constructor | reflexivity]|].
    assert (Hc1 : is_az c = true).
    { inversion Hc as [|? ? [H|H] _]; subst; [exact H|]. exfalso; eapply Hh; eauto. }
    destruct s as [|d s].
    + exists [[c]]. split; [|reflexivity].
      repeat constructor; [discriminate | exact Hc1].
    + assert (Hrec : clean_form (if N.eqb d 32 then s else d :: s) /\
                     (if N.eqb d 32 then s else d :: s) <> []).
      { destruct (N.eqb d 32) eqn:Ed.
        - apply N.eqb_eq in Ed; subst d. split.
          + apply IH.
            * simpl in Hn |- *; lia.
            * inversion Hc as [|? ? _ Hc']; inversion Hc'; assumption.
            * apply (single_spaced_infix [c; 32] s []). rewrite app_nil_r. exact Hs.
            * intros r ->. apply (Hs [c] r). reflexivity.
            * intros l ->. apply (Hl (c :: 32 :: l)). reflexivity.
          + intros ->. apply (Hl [c]). reflexivity.
        - split; [|discriminate]. apply IH.
          + simpl in Hn |- *; lia.
          + inversion Hc; assumption.
          + apply (single_spaced_infix [c] (d :: s) []). rewrite app_nil_r. exact Hs.
          + intros r H; inversion H; subst. rewrite N.eqb_refl in Ed; discriminate.
          + intros l H. apply (Hl (c :: l)). simpl; rewrite H; reflexivity. }
      destruct Hrec as [[ws [Hws Hj]] Hne].
      destruct ws as [|w ws]; [exfalso; apply Hne; exact Hj|].
      destruct (N.eqb d 32) eqn:Ed.
      * apply N.eqb_eq in Ed; subst d.
        exists ([c] :: w :: ws). split.
        -- constructor; [|exact Hws]. split; [discriminate | repeat constructor; exact Hc1].
        -- rewrite join_cons_cons, <- Hj. reflexivity.
      * exists ((c :: w) :: ws). split.
        -- inversion Hws as [|? ? [Hw1 Hw2] Hws']; subst.
           constructor; [|exact Hws']. split; [discriminate | constructor; assumption].
        -- rewrite Hj. destruct ws; reflexivity.
Qed.

Lemma Forall_infix {A : Type} (P : A -> Prop) (pre s post : list A) :
  Forall P (pre ++ s ++ post) -> Forall P s.
Proof.
  intros H. apply Forall_app in H; destruct H as [_ H].
  apply Forall_app in H; destruct H as [H _]. exact H.
Qed.

Lemma steps_clean_form (s : str) :
  clean_form (trim (collapse_whitespace (keep_letters_and_space s))).
Proof.
  unfold trim, collapse_whitespace.
  set (x := keep_letters_and_space s).
  set (y := collapse_from false x).
  assert (Hx : Forall (fun c => is_az c = true \/ py_isspace c = true) x).
  { apply Forall_forall. intros c Hc.
    apply filter_In in Hc; destruct Hc as [_ Hc].
    apply orb_true_iff in Hc. exact Hc. }
  pose proof (collapse_chars x Hx false) as Hy1.
  pose proof (collapse_single_spaced x false) as Hy2.
  fold y in Hy1, Hy2.
  destruct (py_strip_split y) as [pre [post [Hsplit [Hhead Hlast]]]].
  rewrite Hsplit in Hy1, Hy2.
  apply (clean_form_intro (List.length (py_strip y))).
  - lia.
  - apply (Forall_infix _ _ _ _ Hy1).
  - apply (single_spaced_infix _ _ _ Hy2).
  - intros r H. apply Hhead in H. rewrite space_is_space in H; discriminate.
  - intros l H. apply Hlast in H. rewrite space_is_space in H; discriminate.
Qed.

End Shape.


(* ================================================================== *)
(** ** The claims on [clean_text] and [get_sentiment] *)

(** C1, as the specification states it, fails: for the input text
    "Check this out http://x.co #great @bob!!!" the cleaning does not
    give "check this out great".  The pattern [#\w+] removes the hashtag
    with its word. *)
Lemma clean_text_example_not_great :
  @clean_text ascii_only whole_percent (VStr spec_example)
  <> lit "check this out great".
Proof. vm_compute. discriminate. Qed.

(** C1, amended: for the input text
    "Check this out http://x.co #great @bob!!!" the cleaning gives
    "check this out", the hashtag being removed together with its word;
    and a text whose polarity score is positive is given the sentiment
    "Positive". *)
Theorem clean_text_example (U : Unicode) (F : FloatText) (T : TextBlob) :
  clean_text (VStr spec_example) = lit "check this out" /\
  forall text : value,
    SFltb float_zero (polarity (py_str text)) = true ->
    get_sentiment text = lit "Positive".
Proof.
  split; [reflexivity|].
  intros text H. unfold get_sentiment. rewrite H. reflexivity.
Qed.

Lemma clean_text_example_witness :
  SFltb float_zero
        (@polarity two_words (@py_str whole_percent (VStr (lit "good"))))
    = true /\
  @get_sentiment whole_percent two_words (VStr (lit "good")) = lit "Positive".
Proof.
  split; [reflexivity|].
  apply (proj2 (clean_text_example ascii_only whole_percent two_words)).
  reflexivity.
Defined.

Lemma clean_text_upper_link (U : Unicode) (F : FloatText) :
  clean_text (VStr upper_link) = lit "visit".
Proof. reflexivity. Qed.

Lemma steps_lower_fourth_upper_link (U : Unicode) :
  steps_lower_fourth upper_link = lit "visit httpxco".
Proof. reflexivity. Qed.

(** C2, as the specification states it, fails: with the lower-casing done
    after the three removals, as section 4.2 orders the steps, the link of
    "Visit HTTP://X.CO" is not recognised and its letters stay, while
    [clean_text] lower-cases first and removes it. *)
Lemma clean_text_order_counterexample :
  @clean_text ascii_only whole_percent (VStr upper_link)
  <> @steps_lower_fourth ascii_only upper_link.
Proof.
  rewrite clean_text_upper_link, steps_lower_fourth_upper_link.
  vm_compute. discriminate.
Qed.

(** C2, amended: for every input, [clean_text] is the composition of the
    seven steps in this order: lower-casing, then URL removal, then
    @-mention removal, then #-hashtag removal, then removal of every
    character outside [a-z] and white space, then collapsing of runs of
    white space, then trimming. *)
Theorem clean_text_order (U : Unicode) (F : FloatText) (text : value) :
  clean_text text =
  trim (collapse_whitespace (keep_letters_and_space
    (remove_hashtags (remove_mentions (remove_links
      (py_lower (py_str text))))))).
Proof. apply clean_text_steps. Qed.

(** C3: the label [get_sentiment] gives depends on the text only through
    its polarity score, by the sign of the score with a strict threshold at
    zero: a score above zero gives "Positive", a score below zero gives
    "Negative", a score equal to zero gives "Neutral"; texts with the same
    score get the same label. *)
Theorem get_sentiment_sign (F : FloatText) (T : TextBlob) (text : value) :
  (SFltb float_zero (polarity (py_str text)) = true ->
   get_sentiment text = lit "Positive") /\
  (SFltb (polarity (py_str text)) float_zero = true ->
   get_sentiment text = lit "Negative") /\
  (SFeqb (polarity (py_str text)) float_zero = true ->
   get_sentiment text = lit "Neutral") /\
  (forall text' : value,
     polarity (py_str text') = polarity (py_str text) ->
     get_sentiment text' = get_sentiment text).
Proof.
  unfold get_sentiment. repeat split.
  - intros ->. reflexivity.
  - intros H. destruct (polarity (py_str text)) as [[|]|[|]| |[|] m e];
      try discriminate; reflexivity.
  - intros H. destruct (polarity (py_str text)) as [[|]|[|]| |[|] m e];
      try discriminate; reflexivity.
  - intros text' ->. reflexivity.
Qed.

Lemma get_sentiment_sign_witness :
  @get_sentiment whole_percent two_words (VStr (lit "good")) = lit "Positive" /\
  @get_sentiment whole_percent two_words (VStr (lit "bad")) = lit "Negative" /\
  @get_sentiment whole_percent two_words (VStr (lit "so so")) = lit "Neutral" /\
  @get_sentiment whole_percent two_words (VStr (lit "fine"))
  = @get_sentiment whole_percent two_words (VStr (lit "so so")).
Proof.
  split; [|split; [|split]].
  - apply (get_sentiment_sign whole_percent two_words (VStr (lit "good"))).
    reflexivity.
  - apply (get_sentiment_sign whole_percent two_words (VStr (lit "bad"))).
    reflexivity.
  - apply (get_sentiment_sign whole_percent two_words (VStr (lit "so so"))).
    reflexivity.
  - apply (get_sentiment_sign whole_percent two_words (VStr (lit "so so"))).
    reflexivity.
Defined.

(** C4: for every input, the text [clean_text] returns is made of words of
    lowercase letters a to z with exactly one space between two words, so
    it has no other character and no white space at either end; the empty
    text is the case of no word. *)
Theorem clean_text_clean_form (U : Unicode) (F : FloatText) (text : value) :
  clean_form (clean_text text).
Proof.
  rewrite clean_text_steps. apply steps_clean_form.
Qed.

(** ** Runs *)

(** A run that renders nothing and goes on is a [ret]. *)
Ltac as_ret :=
  match goal with
  | |- context [(@nil element, Done ?x)] =>
      change (@nil element, Done x) with (ret x)
  end.

(** Comparisons of two literals are computed. *)
Ltac compare_labels :=
  repeat match goal with
         | |- context [str_eqb (lit ?a) (lit ?b)] =>
             let r := eval vm_compute in (str_eqb (lit a) (lit b)) in
             change (str_eqb (lit a) (lit b)) with r
         end.

Lemma bind_Done {A B : Type} (m : run A) (k : A -> run B)
      (es : list element) (b : B) :
  bind m k = (es, Done b) ->
  exists es1 a es2,
    m = (es1, Done a) /\ k a = (es2, Done b) /\ es = es1 ++ es2.
Proof.
  unfold bind. destruct m as [es1 [a| |e]]; try discriminate.
  destruct (k a) as [es2 o] eqn:E.
  intros H; inversion H; subst. exists es1, a, es2. auto.
Qed.

Lemma bind_ret {A B : Type} (a : A) (k : A -> run B) : bind (ret a) k = k a.
Proof. unfold bind, ret. destruct (k a); reflexivity. Qed.

(** ** Columns *)

Lemma find_column_set_column (c : Column) (cs : list Column) :
  find_column (col_name c) (set_column c cs) = Some c.
Proof.
  induction cs as [|c' cs IH]; simpl.
  - rewrite str_eqb_refl. reflexivity.
  - destruct (str_eqb (col_name c') (col_name c)) eqn:E; simpl.
    + rewrite str_eqb_refl. reflexivity.
    + rewrite E. exact IH.
Qed.

Lemma find_column_set_other (c : Column) (key : str) (cs : list Column) :
  str_eqb (col_name c) key = false ->
  find_column key (set_column c cs) = find_column key cs.
Proof.
  intros Hne. induction cs as [|c' cs IH]; simpl.
  - rewrite Hne. reflexivity.
  - destruct (str_eqb (col_name c') (col_name c)) eqn:E; simpl.
    + apply str_eqb_eq in E. rewrite E, Hne. reflexivity.
    + rewrite IH. reflexivity.
Qed.


Lemma find_column_In (c : Column) (cs : list Column) :
  In c cs -> find_column (col_name c) cs <> None.
Proof.
  induction cs as [|c' cs IH]; simpl; [tauto|].
  destruct (str_eqb (col_name c') (col_name c)) eqn:E; [discriminate|].
  intros [H|H]; [subst; rewrite str_eqb_refl in E; discriminate | auto].
Qed.

Lemma take_columns_names (keys : list str) (cs : list Column) :
  (forall k, In k keys -> exists c, In c cs /\ col_name c = k) ->
  take_columns keys cs <> None.
Proof.
  induction keys as [|k keys IH]; simpl; intros H; [discriminate|].
  destruct (H k (or_introl eq_refl)) as [c [Hc Hk]].
  pose proof (find_column_In c cs Hc) as Hf. rewrite Hk in Hf.
  destruct (find_column k cs); [|contradiction].
  assert (Hrec : take_columns keys cs <> None) by (apply IH; auto).
  destruct (take_columns keys cs); [discriminate | contradiction].
Qed.

(** The text columns of a frame can be taken from it. *)
Lemma take_text_columns (df : DataFrame) :
  take_columns (select_dtypes_object df) (df_columns df) <> None.
Proof.
  apply take_columns_names. unfold select_dtypes_object.
  intros k Hk. apply in_map_iff in Hk. destruct Hk as [c [Hk Hc]].
  apply filter_In in Hc. exists c. tauto.
Qed.

Section Tables.

Context {U : Unicode} {F : FloatText} {T : TextBlob} {P : Parser}
        {V : Pandas} {W : CsvWriter}.


Lemma setitem_ok (df : DataFrame) (key : str) (s : Series) :
  List.length s = nrows df ->
  setitem df key s =
  ret (mkFrame (nrows df) (set_column (mkColumn key object s) (df_columns df))).
Proof.
  intros H. unfold setitem. rewrite H, Nat.eqb_refl. reflexivity.
Qed.

Lemma getitem_set_column (n : nat) (c : Column) (cs : list Column) :
  getitem (mkFrame n (set_column c cs)) (col_name c) = ret (col_values c).
Proof.
  unfold getitem. cbn [df_columns]. rewrite find_column_set_column. reflexivity.
Qed.

(** [classify] written out: it fails when a text column is not there, and
    when a missing value is left in a row of the text columns. *)
Lemma classify_eq (df : DataFrame) (text_cols : list str) :
  classify df text_cols =
  match take_columns text_cols (df_columns df) with
  | Some cs =>
      if (astype_str_keeps_missing && any_missing cs (nrows df))%bool
      then raise TypeError
      else
        let combined :=
          map (fun i => VStr (join (lit " ") (map py_str (row_of cs i))))
              (seq 0 (nrows df)) in
        ret (mkFrame (nrows df) (derived_columns combined (df_columns df)))
  | None => raise (KeyError [])
  end.
Proof.
  unfold classify, combined_text.
  destruct (take_columns text_cols (df_columns df)) as [cs|]; [|reflexivity].
  destruct (astype_str_keeps_missing && any_missing cs (nrows df))%bool;
    [reflexivity|].
  cbv zeta. rewrite bind_ret.
  set (combined := map _ (seq 0 (nrows df))).
  assert (Hlen : List.length combined = nrows df).
  { unfold combined. rewrite length_map, length_seq. reflexivity. }
  rewrite setitem_ok by exact Hlen. rewrite bind_ret.
  rewrite (getitem_set_column (nrows df)
             (mkColumn (lit "Combined_Text") object combined)).
  rewrite bind_ret. cbn [col_values].
  rewrite setitem_ok
    by (cbn [nrows]; unfold series_apply; rewrite length_map; exact Hlen).
  rewrite bind_ret. cbn [nrows df_columns].
  rewrite (getitem_set_column (nrows df)
             (mkColumn (lit "Cleaned_Text") object
                       (series_apply clean_text combined))).
  rewrite bind_ret. cbn [col_values].
  rewrite setitem_ok
    by (cbn [nrows]; unfold series_apply; rewrite !length_map; exact Hlen).
  reflexivity.
Qed.

Lemma read_csv_quiet (file : csv) (es : list element) (o : outcome DataFrame) :
  read_csv file = (es, o) -> es = [].
Proof.
  unfold read_csv. destruct (header file); [intros H; inversion H; reflexivity|].
  destruct (forallb _ (records file)); intros H; inversion H; reflexivity.
Qed.

(** What a classified table is made of. *)
Lemma classified_table_inv (file : csv) (es : list element) (df : DataFrame) :
  classified_table file = (es, Done df) ->
  exists (df0 : DataFrame) (combined : Series),
    read_csv file = ([], Done df0) /\
    select_dtypes_object df0 <> [] /\
    List.length combined = nrows df0 /\
    df = mkFrame (nrows df0) (derived_columns combined (df_columns df0)) /\
    es = [].
Proof.
  unfold classified_table. intros H.
  apply bind_Done in H. destruct H as [es1 [df0 [es2 [H1 [H2 ->]]]]].
  pose proof (read_csv_quiet _ _ _ H1) as ->.
  apply bind_Done in H2. destruct H2 as [es3 [tc [es4 [H3 [H4 ->]]]]].
  unfold text_columns in H3.
  destruct (select_dtypes_object df0) as [|k ks] eqn:Etc; [discriminate|].
  simpl in H3. inversion H3; subst es3 tc. clear H3.
  rewrite classify_eq in H4.
  destruct (take_columns (k :: ks) (df_columns df0)) as [cs|]; [|discriminate].
  destruct (astype_str_keeps_missing && any_missing cs (nrows df0))%bool;
    [discriminate|].
  cbv zeta in H4. inversion H4; subst.
  exists df0,
    (map (fun i => VStr (join (lit " ") (map py_str (row_of cs i))))
         (seq 0 (nrows df0))).
  split; [exact H1|]. split; [rewrite Etc; discriminate|].
  split; [rewrite length_map, length_seq; reflexivity|].
  split; reflexivity.
Qed.

End Tables.


(** ** Masks *)






Lemma series_eq_length (s : Series) (x : str) :
  List.length (series_eq s x) = List.length s.
Proof. apply length_map. Qed.

(** ** Rows picked by a mask *)



Lemma select_length {A : Type} (mask : list bool) :
  forall xs : list A,
    List.length xs = List.length mask ->
    List.length (select mask xs) = count_true mask.
Proof.
  unfold count_true.
  induction mask as [|b mask IH]; intros [|x xs] H; simpl in H;
    try discriminate; [reflexivity|].
  injection H as H. simpl. destruct b; simpl; rewrite (IH xs H); reflexivity.
Qed.


Section Frames.

Context {U : Unicode} {F : FloatText} {T : TextBlob} {P : Parser}
        {V : Pandas} {W : CsvWriter}.






(** The column [Sentiment] of a classified table: one of the three labels
    in every row. *)
Lemma classified_table_sentiment (file : csv) (es : list element)
      (df : DataFrame) :
  classified_table file = (es, Done df) ->
  exists cleaned : Series,
    getitem df (lit "Sentiment")
      = ([], Done (series_apply get_sentiment cleaned)) /\
    List.length cleaned = nrows df.
Proof.
  intros H. apply classified_table_inv in H.
  destruct H as [df0 [combined [_ [_ [Hlen [-> _]]]]]].
  exists (series_apply clean_text combined). split.
  - unfold derived_columns. cbv zeta.
    apply (getitem_set_column (nrows df0)
             (mkColumn (lit "Sentiment") object _)).
  - unfold series_apply. rewrite length_map. exact Hlen.
Qed.

Lemma get_sentiment_label (text : value) : In (get_sentiment text) labels.
Proof.
  unfold get_sentiment, labels. cbv zeta.
  destruct (SFltb float_zero _); [simpl; auto|].
  destruct (SFltb _ float_zero); simpl; auto.
Qed.

(** Each row is counted under exactly one label. *)
Lemma count_true_labels (cleaned : Series) :
  let sentiment := series_apply get_sentiment cleaned in
  (count_true (series_eq sentiment (lit "Positive"))
   + count_true (series_eq sentiment (lit "Neutral"))
   + count_true (series_eq sentiment (lit "Negative")))%nat
  = List.length cleaned.
Proof.
  cbv zeta. unfold count_true.
  induction cleaned as [|v cleaned IH]; [reflexivity|].
  cbn [series_apply series_eq map filter List.length].
  fold (series_apply get_sentiment cleaned).
  fold (series_eq (series_apply get_sentiment cleaned) (lit "Positive")).
  fold (series_eq (series_apply get_sentiment cleaned) (lit "Neutral")).
  fold (series_eq (series_apply get_sentiment cleaned) (lit "Negative")).
  destruct (get_sentiment_label v) as [<-|[<-|[<-|[]]]]; compare_labels;
    cbn [List.length]; lia.
Qed.

Lemma count_label_eq (df : DataFrame) (sentiment : Series) (label : str) :
  getitem df (lit "Sentiment") = ([], Done sentiment) ->
  List.length sentiment = nrows df ->
  count_label df label = ([], Done (count_true (series_eq sentiment label))).
Proof.
  intros Hget Hlen. unfold count_label. rewrite Hget.
  as_ret. rewrite bind_ret.
  unfold getitem_mask. rewrite series_eq_length, Hlen, Nat.eqb_refl.
  rewrite bind_ret. unfold len, ret. cbn [nrows].
  rewrite select_length by (rewrite length_seq, series_eq_length; auto).
  reflexivity.
Qed.

(** C5: in every classified table, the number of rows labelled Positive,
    the number labelled Neutral and the number labelled Negative, as the
    script counts them, add up to the number of rows. *)
Theorem label_counts_partition (file : csv) (es : list element)
        (df : DataFrame) :
  classified_table file = (es, Done df) ->
  exists pos neu neg : nat,
    count_label df (lit "Positive") = ([], Done pos) /\
    count_label df (lit "Neutral") = ([], Done neu) /\
    count_label df (lit "Negative") = ([], Done neg) /\
    (pos + neu + neg)%nat = len df.
Proof.
  intros H. destruct (classified_table_sentiment _ _ _ H) as [cleaned [Hget Hlen]].
  assert (Hs : List.length (series_apply get_sentiment cleaned) = nrows df)
    by (unfold series_apply; rewrite length_map; exact Hlen).
  eexists _, _, _.
  split; [apply (count_label_eq _ _ _ Hget Hs)|].
  split; [apply (count_label_eq _ _ _ Hget Hs)|].
  split; [apply (count_label_eq _ _ _ Hget Hs)|].
  unfold len. rewrite <- Hlen. apply count_true_labels.
Qed.


End Frames.

Lemma label_counts_partition_witness :
  exists df : DataFrame,
    @classified_table ascii_only whole_percent two_words whole_numbers
      pandas2 two_bad_one_good = ([], Done df) /\
    exists pos neu neg : nat,
      count_label df (lit "Positive") = ([], Done pos) /\
      count_label df (lit "Neutral") = ([], Done neu) /\
      count_label df (lit "Negative") = ([], Done neg) /\
      (pos + neu + neg)%nat = len df.
Proof.
  eexists. split; [vm_compute; reflexivity|].
  apply (label_counts_partition (U := ascii_only) (F := whole_percent)
           (T := two_words) (P := whole_numbers) (V := pandas2)
           two_bad_one_good []).
  vm_compute. reflexivity.
Defined.



(** ** [value_counts] on a column of strings *)

Lemma value_eqb_string (a b : value) :
  is_string a -> is_string b -> (value_eqb a b = true <-> a = b).
Proof.
  intros [s ->] [t ->]. simpl. rewrite str_eqb_eq.
  split; [intros ->; reflexivity | intros H; inversion H; reflexivity].
Qed.

Lemma dropna_strings (s : Series) :
  Forall is_string s -> filter (fun v => negb (is_nan v)) s = s.
Proof.
  induction 1 as [|v s [t ->] Hs IH]; simpl; [reflexivity|].
  f_equal. exact IH.
Qed.

Lemma unique_In (s : Series) (k : value) :
  Forall is_string s -> (In k (unique s) <-> In k s).
Proof.
  induction 1 as [|v s Hv Hs IH]; simpl; [tauto|].
  rewrite filter_In, IH. split.
  - intros [H|[H _]]; auto.
  - intros [H|H]; [auto|].
    destruct (value_eqb v k) eqn:E.
    + left. apply value_eqb_string; auto.
      rewrite Forall_forall in Hs. auto.
    + right. split; [exact H | reflexivity].
Qed.

Lemma unique_NoDup (s : Series) : Forall is_string s -> NoDup (unique s).
Proof.
  induction 1 as [|v s Hv Hs IH]; simpl; constructor.
  - rewrite filter_In. intros [_ H].
    assert (E : value_eqb v v = true) by (apply value_eqb_string; auto).
    rewrite E in H. discriminate.
  - apply NoDup_filter. exact IH.
Qed.

Lemma insert_desc_Permutation (x : value * nat) (l : list (value * nat)) :
  Permutation (insert_desc x l) (x :: l).
Proof.
  induction l as [|y l IH]; simpl; [reflexivity|].
  destruct (Nat.ltb (snd x) (snd y)); [|reflexivity].
  rewrite IH. apply perm_swap.
Qed.

Lemma sort_desc_Permutation (l : list (value * nat)) :
  Permutation (sort_desc l) l.
Proof.
  induction l as [|x l IH]; simpl; [reflexivity|].
  rewrite insert_desc_Permutation. constructor. exact IH.
Qed.

Lemma insert_desc_HdRel (a x : value * nat) (l : list (value * nat)) :
  falling a x -> HdRel falling a l -> HdRel falling a (insert_desc x l).
Proof.
  intros Hax Hl. destruct l as [|y l]; simpl; [constructor; exact Hax|].
  destruct (Nat.ltb (snd x) (snd y)); constructor; [|exact Hax].
  inversion Hl; assumption.
Qed.

Lemma insert_desc_Sorted (x : value * nat) (l : list (value * nat)) :
  Sorted falling l -> Sorted falling (insert_desc x l).
Proof.
  induction 1 as [|y l Hl IH Hy]; simpl; [repeat constructor|].
  destruct (Nat.ltb (snd x) (snd y)) eqn:E.
  - constructor; [exact IH|].
    apply insert_desc_HdRel; [|exact Hy].
    apply Nat.ltb_lt in E. unfold falling. lia.
  - constructor; [constructor; assumption|].
    constructor. apply Nat.ltb_ge in E. exact E.
Qed.

Lemma sort_desc_Sorted (l : list (value * nat)) : Sorted falling (sort_desc l).
Proof.
  induction l as [|x l IH]; simpl; [constructor|].
  apply insert_desc_Sorted. exact IH.
Qed.

Lemma count_value_series_eq (s : Series) (label : str) :
  count_value (VStr label) s = count_true (series_eq s label).
Proof.
  unfold count_value, count_true, series_eq.
  induction s as [|v s IH]; [reflexivity|].
  cbn [filter map].
  assert (E : value_eqb (VStr label) v =
              match v with VStr t => str_eqb t label | _ => false end).
  { destruct v as [t| | |]; try reflexivity. simpl.
    destruct (str_eqb label t) eqn:E1, (str_eqb t label) eqn:E2;
      try reflexivity.
    - apply str_eqb_eq in E1; subst. rewrite str_eqb_refl in E2; discriminate.
    - apply str_eqb_eq in E2; subst. rewrite str_eqb_refl in E1; discriminate. }
  rewrite E. destruct (match v with VStr t => str_eqb t label | _ => false end);
    simpl; rewrite IH; reflexivity.
Qed.

Lemma count_value_pos (k : value) (s : Series) :
  is_string k -> In k s -> (0 < count_value k s)%nat.
Proof.
  intros Hk Hin. unfold count_value.
  assert (H : In k (filter (value_eqb k) s)).
  { apply filter_In. split; [exact Hin|]. apply value_eqb_string; auto. }
  destruct (filter (value_eqb k) s); [destruct H | simpl; lia].
Qed.

(** What [value_counts] gives for a column of strings. *)
Lemma value_counts_strings (s : Series) :
  Forall is_string s ->
  Sorted falling (value_counts s) /\
  NoDup (map fst (value_counts s)) /\
  (forall k n, In (k, n) (value_counts s) <->
               In k s /\ n = count_value k s).
Proof.
  intros Hs. unfold value_counts. rewrite (dropna_strings s Hs).
  set (l := map (fun k => (k, count_value k s)) (unique s)).
  pose proof (sort_desc_Permutation l) as Hp.
  split; [apply sort_desc_Sorted|]. split.
  - apply (Permutation_NoDup (l := map fst l)).
    + apply Permutation_map. symmetry. exact Hp.
    + unfold l. rewrite map_map. cbn [fst]. rewrite map_id.
      apply unique_NoDup, Hs.
  - intros k n. split.
    + intros H. apply (Permutation_in _ Hp) in H.
      unfold l in H. apply in_map_iff in H. destruct H as [k' [E Hk']].
      inversion E; subst. split; [|reflexivity].
      apply (unique_In s k Hs). exact Hk'.
    + intros [Hk ->]. apply (Permutation_in _ (Permutation_sym Hp)).
      unfold l. apply in_map_iff. exists k. split; [reflexivity|].
      apply (unique_In s k Hs). exact Hk.
Qed.

Lemma map_snd_combine_seq {A : Type} (l : list A) (a : nat) :
  map snd (combine (seq a (List.length l)) l) = l.
Proof.
  revert a; induction l as [|x l IH]; intros a; simpl; [reflexivity|].
  f_equal. apply IH.
Qed.

Lemma colored_entries (colors : list str) (counts : list (value * nat)) :
  map fst (colored colors counts) = counts.
Proof.
  unfold colored. rewrite map_map. cbn [fst].
  apply map_snd_combine_seq.
Qed.



Lemma count_value_In (k : value) (s : Series) :
  is_string k -> Forall is_string s -> (0 < count_value k s)%nat -> In k s.
Proof.
  intros Hk Hs. unfold count_value.
  destruct (filter (value_eqb k) s) as [|w l] eqn:E; [simpl; lia|]. intros _.
  assert (Hw : In w (filter (value_eqb k) s)) by (rewrite E; left; reflexivity).
  apply filter_In in Hw. destruct Hw as [Hin Heq].
  rewrite Forall_forall in Hs.
  apply value_eqb_string in Heq; [subst; exact Hin | exact Hk | auto].
Qed.

Section Dashboard.

Context {U : Unicode} {F : FloatText} {T : TextBlob} {P : Parser}
        {V : Pandas} {W : CsvWriter}.

Lemma sentiment_strings (cleaned : Series) :
  Forall is_string (series_apply get_sentiment cleaned).
Proof.
  apply Forall_forall. intros v Hv. unfold series_apply in Hv.
  apply in_map_iff in Hv. destruct Hv as [x [<- _]]. eexists; reflexivity.
Qed.

(** C7: when the uploaded table has no column of strings, the run shows
    the error, is halted by [st.stop()] and not by an exception, and has
    rendered nothing else: no metric, chart, table or download. *)
Theorem no_text_column_stops (file : csv) (es : list element)
        (df : DataFrame) (sentiment_choice : str) :
  read_csv file = (es, Done df) ->
  select_dtypes_object df = [] ->
  script (Some file) sentiment_choice =
    ([st_title page_title; st_markdown intro;
      st_error (lit "No text columns found in your CSV.")],
     Stopped).
Proof.
  intros Hread Hcols.
  pose proof (read_csv_quiet _ _ _ Hread) as ->.
  assert (Hd : dashboard file sentiment_choice =
               ([st_error (lit "No text columns found in your CSV.")],
                Stopped)).
  { unfold dashboard, classified_table. rewrite Hread.
    as_ret. rewrite bind_ret.
    unfold text_columns. rewrite Hcols. reflexivity. }
  unfold script. rewrite Hd. reflexivity.
Qed.

(** C8, amended: in every classified table, the bar chart, the pie chart
    and the line plot show the same entries in the same order: one entry
    for each label that occurs in the column Sentiment, with the number of
    rows that have it, the counts never rising along the order.  The order
    of display so depends on the data, and a label without rows has no
    entry. *)
Theorem charts_follow_counts (file : csv) (es : list element)
        (df : DataFrame) :
  classified_table file = (es, Done df) ->
  exists sentiment : Series,
    getitem df (lit "Sentiment") = ([], Done sentiment) /\
    let counts := value_counts sentiment in
    charts_tab df =
      ([st_subheader (128202 :: lit " Sentiment Charts");
        st_pyplot (BarChart (colored chart_colors counts) (lit "Count")
                            (lit "Sentiment") (lit "Sentiment Distribution"));
        st_pyplot (PieChart (colored chart_colors counts));
        st_subheader (128200 :: lit " Count Graph");
        st_pyplot (LinePlot counts (lit "Sentiment") (lit "Count")
                            (lit "Sentiment Count"))],
       Done tt) /\
    map fst (colored chart_colors counts) = counts /\
    Sorted falling counts /\
    NoDup (map fst counts) /\
    forall (k : value) (n : nat),
      In (k, n) counts <->
      exists label : str,
        In label labels /\ k = VStr label /\
        n = count_true (series_eq sentiment label) /\ (0 < n)%nat.
Proof.
  intros H. destruct (classified_table_sentiment _ _ _ H) as [cleaned [Hget _]].
  set (sentiment := series_apply get_sentiment cleaned) in *.
  pose proof (sentiment_strings cleaned) as Hs. fold sentiment in Hs.
  destruct (value_counts_strings sentiment Hs) as [Hsorted [Hnodup Hin]].
  exists sentiment. split; [exact Hget|]. cbv zeta.
  split; [|split; [apply colored_entries|split; [exact Hsorted|split; [exact Hnodup|]]]].
  - unfold charts_tab. rewrite Hget. reflexivity.
  - intros k n. rewrite Hin. split.
    + intros [Hk ->]. unfold sentiment, series_apply in Hk.
      apply in_map_iff in Hk. destruct Hk as [v [<- Hv]].
      exists (get_sentiment v). split; [apply get_sentiment_label|].
      split; [reflexivity|]. split; [apply count_value_series_eq|].
      apply count_value_pos; [eexists; reflexivity|].
      unfold sentiment, series_apply. apply in_map_iff. exists v. auto.
    + intros [label [_ [-> [-> Hpos]]]].
      rewrite <- count_value_series_eq in *.
      split; [|reflexivity].
      apply count_value_In; [eexists; reflexivity | exact Hs | exact Hpos].
Qed.


Lemma classified_table_total (file : csv) (es : list element)
      (df0 : DataFrame) :
  read_csv file = (es, Done df0) ->
  select_dtypes_object df0 <> [] ->
  (astype_str_keeps_missing && missing_text df0)%bool = false ->
  exists combined : Series,
    List.length combined = nrows df0 /\
    classified_table file =
      ([], Done (mkFrame (nrows df0)
                         (derived_columns combined (df_columns df0)))).
Proof.
  intros Hread Hcols Hmiss.
  pose proof (read_csv_quiet _ _ _ Hread) as ->.
  unfold classified_table. rewrite Hread.
  as_ret. rewrite bind_ret.
  unfold text_columns. unfold missing_text in Hmiss.
  destruct (select_dtypes_object df0) as [|k ks] eqn:Etc; [contradiction|].
  cbn [List.length Nat.eqb]. rewrite !bind_ret. rewrite classify_eq.
  pose proof (take_text_columns df0) as Htake. rewrite Etc in Htake.
  destruct (take_columns (k :: ks) (df_columns df0)) as [cs|]; [|contradiction].
  rewrite Hmiss.
  eexists. split; [|reflexivity].
  rewrite length_map, length_seq. reflexivity.
Qed.


End Dashboard.

Lemma no_text_column_stops_witness :
  exists df : DataFrame,
    @read_csv whole_numbers numbers_only = ([], Done df) /\
    select_dtypes_object df = [] /\
    @script ascii_only whole_percent two_words whole_numbers
      pandas2 cr_unquoted (Some numbers_only) (lit "All") =
      ([st_title page_title; st_markdown intro;
        st_error (lit "No text columns found in your CSV.")],
       Stopped).
Proof.
  eexists. split; [vm_compute; reflexivity|]. split; [reflexivity|].
  apply (no_text_column_stops (U := ascii_only) (F := whole_percent)
           (T := two_words) (P := whole_numbers) (V := pandas2)
           numbers_only [] _
           (lit "All") eq_refl).
  reflexivity.
Defined.

Lemma charts_follow_counts_witness :
  exists df : DataFrame,
    @classified_table ascii_only whole_percent two_words whole_numbers
      pandas2 two_bad_one_good = ([], Done df) /\
    exists sentiment : Series,
      getitem df (lit "Sentiment") = ([], Done sentiment) /\
      Sorted falling (value_counts sentiment) /\
      NoDup (map fst (value_counts sentiment)).
Proof.
  eexists. split; [vm_compute; reflexivity|].
  destruct (charts_follow_counts (U := ascii_only) (F := whole_percent)
              (T := two_words) (P := whole_numbers) (V := pandas2)
              two_bad_one_good [] _ eq_refl)
    as [sentiment [Hget [_ [_ [Hsorted [Hnodup _]]]]]].
  exists sentiment. split; [exact Hget|]. split; assumption.
Defined.


(** C8, as the specification states it, fails: with two rows Negative and
    one Positive the first bar, Negative, is green and the second,
    Positive, is grey; and the line plot runs Negative, Positive for this
    table and Positive, Negative for the table with two rows Positive and
    one Negative. *)
Lemma charts_counterexample :
  ~ Forall colored_by_label
      (figures_of (@script ascii_only whole_percent two_words whole_numbers
                           pandas2 cr_unquoted
                           (Some two_bad_one_good) (lit "All"))) /\
  line_order (@script ascii_only whole_percent two_words whole_numbers
                      pandas2 cr_unquoted
                      (Some two_bad_one_good) (lit "All"))
  <> line_order (@script ascii_only whole_percent two_words whole_numbers
                         pandas2 cr_unquoted
                         (Some two_good_one_bad) (lit "All")).
Proof.
  split.
  - intros H. vm_compute in H.
    inversion H as [|? ? Hbar _]; subst.
    inversion Hbar as [|? ? Hb _]; subst. discriminate Hb.
  - vm_compute. discriminate.
Qed.



(** ** The writer and the tokenizer *)

Section Tokens.

Context {W : CsvWriter}.















(** Where the writer puts a carriage return in quotes there is none
    without. *)
Lemma no_bare_cr_quoting (file : csv) :
  quotes_cr = true -> no_bare_cr file = true.
Proof.
  intros Hq. unfold no_bare_cr. apply forallb_forall. intros row _.
  apply negb_true_iff. destruct (existsb bare_cr row) eqn:E; [|reflexivity].
  apply existsb_exists in E. destruct E as [field [_ E]].
  unfold bare_cr in E. apply andb_true_iff in E. destruct E as [E1 E2].
  apply negb_true_iff in E2. apply existsb_exists in E1.
  destruct E1 as [c [Hc E1]]. apply N.eqb_eq in E1. subst c.
  assert (H : needs_quotes field = true).
  { unfold needs_quotes. apply existsb_exists. exists 13. split; [exact Hc|].
    unfold special. rewrite Hq. reflexivity. }
  congruence.
Qed.

End Tokens.

(** ** The stand-in parser reads back what is written *)





(** ** Export and re-load *)



Section RoundTrip.

Context {U : Unicode} {F : FloatText} {T : TextBlob} {P : Parser}
        {V : Pandas} {W : CsvWriter}.











End RoundTrip.



(** Why the carriage return is excluded.  A writer that leaves it without
    quotes writes the cell with a carriage return between two letters as
    it is, and the two rows exported are read as four, three of them
    filled up with missing values; a writer that puts it in quotes gives
    the two rows back. *)
Example reload_breaks_at_cr :
  match @export_reload ascii_only whole_percent two_words whole_numbers
          pandas2 cr_unquoted cr_and_good (lit "All") with
  | (_, Done (sub, back)) =>
      nrows sub = 2%nat /\ nrows back = 4%nat /\
      map (fun r => nth 3 r NaN) (df_rows back)
        = [NaN; NaN; NaN; VStr (lit "Positive")]
  | _ => False
  end /\
  match @export_reload ascii_only whole_percent two_words whole_numbers
          pandas2 cr_quoted cr_and_good (lit "All") with
  | (_, Done (sub, back)) =>
      nrows back = 2%nat /\
      map (fun r => nth 0 r NaN) (df_rows back)
        = map (fun r => nth 0 r NaN) (df_rows sub)
  | _ => False
  end.
Proof. split; vm_compute; repeat split; reflexivity. Qed.

(* ================================================================== *)
(** * Further properties of the script *)

(** ** More on the cleaning *)

Lemma subseq_refl (s : str) : subseq s s.
Proof. induction s; constructor; assumption. Qed.

Lemma subseq_trans (a b c : str) : subseq a b -> subseq b c -> subseq a c.
Proof.
  intros Hab Hbc. revert a Hab.
  induction Hbc as [|x s t Hst IH|x s t Hst IH]; intros a Hab.
  - exact Hab.
  - inversion Hab; subst; constructor; auto.
  - constructor. auto.
Qed.

Lemma subseq_filter (f : char -> bool) (s : str) : subseq (filter f s) s.
Proof.
  induction s as [|c s IH]; simpl; [constructor|].
  destruct (f c); constructor; exact IH.
Qed.

Lemma subseq_nil_l (s : str) : subseq [] s.
Proof. induction s; constructor; assumption. Qed.

Lemma subseq_Forall (Q : char -> Prop) (s t : str) :
  subseq s t -> Forall Q t -> Forall Q s.
Proof.
  induction 1 as [|c s t _ IH|c s t _ IH]; intros H; [constructor| |].
  - inversion H; subst. constructor; auto.
  - inversion H; subst. auto.
Qed.

Section MoreCleaning.

Context {U : Unicode} {F : FloatText}.

Lemma remove_runs_subseq (starts : str -> bool) (p : char -> bool) (s : str) :
  forall inside : bool, subseq (remove_runs starts p inside s) s.
Proof.
  induction s as [|c s IH]; intros inside; simpl; [constructor|].
  destruct (inside && p c)%bool; [constructor; apply IH|].
  destruct (starts (c :: s)); constructor; apply IH.
Qed.

(** Where nothing starts a run, nothing is removed. *)
Lemma remove_runs_none (starts : str -> bool) (p : char -> bool) (s : str) :
  has_start starts s = false -> remove_runs starts p false s = s.
Proof.
  unfold has_start.
  induction s as [|c s IH]; intros H; [reflexivity|].
  cbn [suffixes existsb] in H. apply orb_false_iff in H. destruct H as [H1 H2].
  cbn [remove_runs andb]. rewrite H1. f_equal. apply IH.
  destruct s; exact H2.
Qed.

Lemma space_not_az (c : char) : py_isspace c = true -> is_az c = false.
Proof.
  unfold is_az, py_isspace, is_ascii, ascii_isspace, in_range.
  destruct (N.ltb c 128) eqn:E.
  - rewrite !orb_true_iff, !andb_true_iff, !N.leb_le, N.eqb_eq.
    intros H. apply andb_false_iff. rewrite !N.leb_gt. lia.
  - intros _. apply N.ltb_ge in E. apply andb_false_iff.
    rewrite !N.leb_gt. lia.
Qed.

Lemma letters_collapse (s : str) (b : bool) :
  letters (collapse_from b s) = letters s.
Proof.
  unfold letters. revert b; induction s as [|c s IH]; intros b; simpl;
    [reflexivity|].
  destruct (py_isspace c) eqn:E.
  - rewrite (space_not_az c E).
    destruct b; simpl; apply IH.
  - simpl. rewrite IH. reflexivity.
Qed.

Lemma letters_spaces (s : str) :
  forallb py_isspace s = true -> letters s = [].
Proof.
  unfold letters. induction s as [|c s IH]; simpl; [reflexivity|].
  intros H. apply andb_true_iff in H. destruct H as [Hc Hs].
  rewrite (space_not_az c Hc). auto.
Qed.

Lemma letters_app (s t : str) : letters (s ++ t) = letters s ++ letters t.
Proof. apply filter_app. Qed.

Lemma letters_rev (s : str) : letters (rev s) = rev (letters s).
Proof.
  unfold letters. induction s as [|c s IH]; simpl; [reflexivity|].
  rewrite filter_app, IH. simpl. destruct (is_az c); simpl;
    [reflexivity | apply app_nil_r].
Qed.

Lemma letters_lstrip (s : str) : letters (lstrip s) = letters s.
Proof.
  unfold lstrip, letters. induction s as [|c s IH]; simpl; [reflexivity|].
  destruct (py_isspace c) eqn:E; [|reflexivity].
  rewrite (space_not_az c E). exact IH.
Qed.

Lemma letters_strip (s : str) : letters (py_strip s) = letters s.
Proof.
  unfold py_strip.
  rewrite letters_rev, letters_lstrip, letters_rev, rev_involutive.
  apply letters_lstrip.
Qed.

Lemma letters_keep (s : str) : letters (keep_letters_and_space s) = letters s.
Proof.
  unfold letters, keep_letters_and_space.
  induction s as [|c s IH]; simpl; [reflexivity|].
  destruct (is_az c) eqn:E; simpl; [rewrite E, IH; reflexivity|].
  destruct (py_isspace c); simpl; [rewrite E|]; exact IH.
Qed.

(** The letters of the cleaned text are those left by the three removals. *)
Lemma letters_clean_text (text : value) :
  letters (clean_text text) =
  letters (remove_hashtags (remove_mentions (remove_links
             (py_lower (py_str text))))).
Proof.
  rewrite clean_text_steps. unfold steps_lower_first, trim, collapse_whitespace.
  rewrite letters_strip, letters_collapse, letters_keep. reflexivity.
Qed.

Lemma letters_subseq_lower (text : value) :
  subseq (letters (clean_text text)) (py_lower (py_str text)).
Proof.
  rewrite letters_clean_text.
  eapply subseq_trans; [apply subseq_filter|].
  eapply subseq_trans; [apply remove_runs_subseq|].
  eapply subseq_trans; [apply remove_runs_subseq|].
  apply remove_runs_subseq.
Qed.

(** X1: the letters of the cleaned text are letters of the lower-cased
    input, in the order they have there: cleaning never invents a letter
    and never moves one. *)
Theorem clean_text_letters_subseq (text : value) :
  subseq (letters (clean_text text)) (py_lower (py_str text)).
Proof. apply letters_subseq_lower. Qed.

(** X2: when no place of the lower-cased input starts a link, a mention
    or a hashtag, the cleaned text has all the letters a to z of the
    lower-cased input: letters are lost to those three removals only. *)
Theorem clean_text_keeps_letters (text : value) :
  has_start link_start (py_lower (py_str text)) = false ->
  has_start (tag_start 64) (py_lower (py_str text)) = false ->
  has_start (tag_start 35) (py_lower (py_str text)) = false ->
  letters (clean_text text) = letters (py_lower (py_str text)).
Proof.
  intros Hl Hm Hh. rewrite letters_clean_text.
  unfold remove_links. rewrite (remove_runs_none _ _ _ Hl).
  unfold remove_mentions. rewrite (remove_runs_none _ _ _ Hm).
  unfold remove_hashtags. rewrite (remove_runs_none _ _ _ Hh).
  reflexivity.
Qed.

Lemma letters_join_words (ws : list str) :
  Forall word ws -> letters (join (lit " ") ws) = [] -> ws = [].
Proof.
  intros Hw. destruct ws as [|w ws]; [reflexivity|].
  inversion Hw as [|? ? [Hne Haz] _]; subst.
  destruct w as [|c w]; [contradiction|].
  inversion Haz as [|? ? Hc _]; subst.
  unfold letters. destruct ws; cbn [join app filter]; rewrite Hc; discriminate.
Qed.

(** X3: an input whose lower-cased text has no letter a to z (digits,
    punctuation, white space, other scripts) is cleaned to the empty
    text. *)
Theorem clean_text_no_letter (text : value) :
  Forall (fun c => is_az c = false) (py_lower (py_str text)) ->
  clean_text text = [].
Proof.
  intros H.
  assert (Hl : letters (clean_text text) = []).
  { pose proof (subseq_Forall _ _ _ (letters_subseq_lower text) H) as Hf.
    unfold letters in *. destruct (filter is_az (clean_text text)) as [|c l] eqn:E;
      [reflexivity|].
    assert (Hc : In c (filter is_az (clean_text text))) by (rewrite E; left; reflexivity).
    apply filter_In in Hc. inversion Hf; subst. destruct Hc; congruence. }
  pose proof (steps_clean_form
                (remove_hashtags (remove_mentions (remove_links
                   (py_lower (py_str text)))))) as [ws [Hws Hj]].
  rewrite clean_text_steps in *. unfold steps_lower_first in *.
  rewrite Hj in *. rewrite (letters_join_words ws Hws Hl). reflexivity.
Qed.

End MoreCleaning.

Lemma clean_text_keeps_letters_witness :
  has_start (@link_start ascii_only) (@py_lower ascii_only (lit "Good day!"))
    = false /\
  letters (@clean_text ascii_only whole_percent (VStr (lit "Good day!")))
  = letters (@py_lower ascii_only (lit "Good day!")).
Proof.
  split; [reflexivity|].
  apply (clean_text_keeps_letters (U := ascii_only) (F := whole_percent)
           (VStr (lit "Good day!"))); reflexivity.
Defined.

Lemma clean_text_no_letter_witness :
  Forall (fun c => is_az c = false) (@py_lower ascii_only (lit "12 !?")) /\
  @clean_text ascii_only whole_percent (VStr (lit "12 !?")) = [].
Proof.
  assert (H : Forall (fun c => is_az c = false)
                     (@py_lower ascii_only (lit "12 !?")))
    by (repeat constructor).
  split; [exact H|].
  apply (clean_text_no_letter (U := ascii_only) (F := whole_percent)
           (VStr (lit "12 !?")) H).
Defined.

Section Idempotence.

Context {U : Unicode} {F : FloatText}.

(** What the last three steps leave: letters and single spaces, with a
    letter at both ends. *)
Lemma steps_shape (s : str) :
  let z := trim (collapse_whitespace (keep_letters_and_space s)) in
  Forall letter_or_space z /\ single_spaced z /\
  (forall r, z <> 32 :: r) /\ (forall l, z <> l ++ [32]).
Proof.
  cbv zeta. unfold trim, collapse_whitespace.
  set (x := keep_letters_and_space s).
  set (y := collapse_from false x).
  assert (Hx : Forall (fun c => is_az c = true \/ py_isspace c = true) x).
  { apply Forall_forall. intros c Hc.
    apply filter_In in Hc; destruct Hc as [_ Hc].
    apply orb_true_iff in Hc. exact Hc. }
  pose proof (collapse_chars x Hx false) as Hy1.
  pose proof (collapse_single_spaced x false) as Hy2.
  fold y in Hy1, Hy2.
  destruct (py_strip_split y) as [pre [post [Hsplit [Hhead Hlast]]]].
  rewrite Hsplit in Hy1, Hy2.
  split; [apply (Forall_infix _ _ _ _ Hy1)|].
  split; [apply (single_spaced_infix _ _ _ Hy2)|]. split.
  - intros r H. apply Hhead in H. rewrite space_is_space in H; discriminate.
  - intros l H. apply Hlast in H. rewrite space_is_space in H; discriminate.
Qed.

Lemma letter_is_ascii (c : char) : letter_or_space c -> is_ascii c = true.
Proof.
  unfold is_ascii. intros [H| ->]; [|reflexivity].
  unfold is_az, in_range in H. apply andb_true_iff in H.
  rewrite !N.leb_le in H. apply N.ltb_lt. lia.
Qed.

Lemma letter_lower (c : char) : letter_or_space c -> ascii_lower c = c.
Proof.
  unfold ascii_lower. intros [H| ->]; [|reflexivity].
  unfold is_az, is_AZ, in_range in *. apply andb_true_iff in H.
  rewrite !N.leb_le in H.
  replace (N.leb c 90) with false by (symmetry; apply N.leb_gt; lia).
  rewrite andb_false_r. reflexivity.
Qed.

Lemma letter_space (c : char) :
  letter_or_space c -> py_isspace c = true -> c = 32.
Proof.
  intros [H| ->] Hs; [|reflexivity].
  rewrite (space_not_az c Hs) in H. discriminate.
Qed.

Lemma lower_fixed (z : str) : Forall letter_or_space z -> py_lower z = z.
Proof.
  intros H. unfold py_lower.
  assert (Ha : forallb is_ascii z = true).
  { apply forallb_forall. intros c Hc. apply letter_is_ascii.
    rewrite Forall_forall in H. auto. }
  rewrite Ha. induction H as [|c z Hc Hz IH]; simpl; [reflexivity|].
  rewrite (letter_lower c Hc). f_equal. apply IH.
  simpl in Ha. apply andb_true_iff in Ha. tauto.
Qed.

Lemma letters_no_tag (mark : char) (z : str) :
  mark <> 32 -> is_az mark = false ->
  Forall letter_or_space z -> has_start (tag_start mark) z = false.
Proof.
  intros Hm1 Hm2. unfold has_start.
  induction 1 as [|d z Hd Hz IH]; [reflexivity|].
  cbn [suffixes existsb]. apply orb_false_iff. split.
  - unfold tag_start, followed_by. cbn [strip_prefix].
    assert (E : char_eqb mark d = false).
    { apply N.eqb_neq. intros ->. destruct Hd as [Hd|Hd]; congruence. }
    rewrite E. reflexivity.
  - destruct z; exact IH.
Qed.

Lemma keep_fixed (z : str) :
  Forall letter_or_space z -> keep_letters_and_space z = z.
Proof.
  unfold keep_letters_and_space.
  induction 1 as [|c z Hc Hz IH]; simpl; [reflexivity|].
  assert (E : (is_az c || py_isspace c)%bool = true).
  { destruct Hc as [Hc| ->]; [rewrite Hc|]; reflexivity. }
  rewrite E, IH. reflexivity.
Qed.

Lemma single_spaced_tail (c : char) (z : str) :
  single_spaced (c :: z) -> single_spaced z.
Proof. intros H l1 l2 E. apply (H (c :: l1) l2). rewrite E. reflexivity. Qed.

Lemma collapse_fixed (z : str) :
  Forall letter_or_space z -> single_spaced z ->
  collapse_from false z = z /\
  ((forall r, z <> 32 :: r) -> collapse_from true z = z).
Proof.
  induction 1 as [|c z Hc Hz IH]; intros Hs; [split; reflexivity|].
  destruct (IH (single_spaced_tail _ _ Hs)) as [IH1 IH2].
  cbn [collapse_from].
  destruct (py_isspace c) eqn:E.
  - pose proof (letter_space c Hc E) as ->. split.
    + f_equal. apply IH2. intros r ->. apply (Hs [] r). reflexivity.
    + intros H. exfalso. apply (H z). reflexivity.
  - rewrite IH1. split; reflexivity.
Qed.

Lemma letter_not_space (c : char) :
  letter_or_space c -> c <> 32 -> py_isspace c = false.
Proof.
  intros Hc Hne. destruct (py_isspace c) eqn:E; [|reflexivity].
  exfalso. apply Hne. apply (letter_space c Hc E).
Qed.

Lemma lstrip_fixed (z : str) :
  Forall letter_or_space z -> (forall r, z <> 32 :: r) -> lstrip z = z.
Proof.
  intros Hz Hh. unfold lstrip. destruct z as [|c z]; [reflexivity|].
  simpl. inversion Hz as [|? ? Hc _]; subst.
  rewrite (letter_not_space c Hc); [reflexivity|].
  intros ->. apply (Hh z). reflexivity.
Qed.

Lemma strip_fixed (z : str) :
  Forall letter_or_space z ->
  (forall r, z <> 32 :: r) -> (forall l, z <> l ++ [32]) ->
  py_strip z = z.
Proof.
  intros Hz Hh Hl. unfold py_strip.
  rewrite (lstrip_fixed z Hz Hh).
  rewrite (lstrip_fixed (rev z)).
  - apply rev_involutive.
  - apply Forall_rev. exact Hz.
  - intros r E. apply (Hl (rev r)).
    rewrite <- (rev_involutive z), E. reflexivity.
Qed.

(** A text of letters and single spaces without a link in it is left as
    it is by the seven steps. *)
Lemma steps_fixed (z : str) :
  Forall letter_or_space z -> single_spaced z ->
  (forall r, z <> 32 :: r) -> (forall l, z <> l ++ [32]) ->
  has_start link_start z = false ->
  steps_lower_first z = z.
Proof.
  intros Hz Hs Hh Hl Hlink. unfold steps_lower_first.
  rewrite (lower_fixed z Hz).
  unfold remove_links. rewrite (remove_runs_none _ _ _ Hlink).
  unfold remove_mentions.
  rewrite (remove_runs_none _ _ _
             (letters_no_tag 64 z ltac:(discriminate) eq_refl Hz)).
  unfold remove_hashtags.
  rewrite (remove_runs_none _ _ _
             (letters_no_tag 35 z ltac:(discriminate) eq_refl Hz)).
  rewrite (keep_fixed z Hz). unfold collapse_whitespace.
  rewrite (proj1 (collapse_fixed z Hz Hs)).
  apply (strip_fixed z Hz Hh Hl).
Qed.

(** X4: cleaning a cleaned text again changes nothing, provided no place
    of the cleaned text starts a link. *)
Theorem clean_text_twice (text : value) :
  has_start link_start (clean_text text) = false ->
  clean_text (VStr (clean_text text)) = clean_text text.
Proof.
  intros Hlink. rewrite (clean_text_steps (VStr (clean_text text))).
  cbn [py_str].
  pose proof (steps_shape (remove_hashtags (remove_mentions (remove_links
                (py_lower (py_str text)))))) as Hshape.
  cbv zeta in Hshape. fold (steps_lower_first (py_str text)) in Hshape.
  rewrite <- clean_text_steps in Hshape.
  destruct Hshape as [Hz [Hs [Hh Hl]]].
  apply steps_fixed; assumption.
Qed.

End Idempotence.

Lemma clean_text_twice_witness :
  has_start (@link_start ascii_only)
            (@clean_text ascii_only whole_percent (VStr (lit "Good  day!")))
    = false /\
  @clean_text ascii_only whole_percent
    (VStr (@clean_text ascii_only whole_percent (VStr (lit "Good  day!"))))
  = @clean_text ascii_only whole_percent (VStr (lit "Good  day!")).
Proof.
  split; [reflexivity|].
  apply (clean_text_twice (U := ascii_only) (F := whole_percent)
           (VStr (lit "Good  day!"))).
  reflexivity.
Defined.

(** The condition is needed: punctuation inside a word can hide a link
    from the first cleaning. *)
Example clean_text_twice_differs :
  @clean_text ascii_only whole_percent (VStr (lit "ht-tpfoo")) = lit "httpfoo" /\
  @clean_text ascii_only whole_percent (VStr (lit "httpfoo")) = [].
Proof. split; reflexivity. Qed.

(** ** More on [get_sentiment] *)

Section MoreSentiment.

Context {F : FloatText} {T : TextBlob}.

(** X5: [get_sentiment] returns one of the three labels, and "Neutral"
    exactly when the score is neither above nor below zero; a score that is
    not a number is such a score. *)
Theorem get_sentiment_neutral (text : value) :
  In (get_sentiment text) labels /\
  (get_sentiment text = lit "Neutral" <->
   SFltb float_zero (polarity (py_str text)) = false /\
   SFltb (polarity (py_str text)) float_zero = false) /\
  (polarity (py_str text) = S754_nan -> get_sentiment text = lit "Neutral").
Proof.
  split; [apply get_sentiment_label|]. unfold get_sentiment. cbv zeta. split.
  - destruct (SFltb float_zero (polarity (py_str text)));
      [split; [intros H; vm_compute in H; discriminate | intros [H _]; discriminate]|].
    destruct (SFltb (polarity (py_str text)) float_zero);
      [split; [intros H; vm_compute in H; discriminate | intros [_ H]; discriminate]|].
    split; auto.
  - intros ->. reflexivity.
Qed.

End MoreSentiment.

Lemma get_sentiment_neutral_witness :
  @polarity no_score (@py_str whole_percent (VStr (lit "good"))) = S754_nan /\
  @get_sentiment whole_percent no_score (VStr (lit "good")) = lit "Neutral".
Proof.
  split; [reflexivity|].
  apply (get_sentiment_neutral (F := whole_percent) (T := no_score)
           (VStr (lit "good"))).
  reflexivity.
Defined.

(** ** More on the run *)

Section MoreRun.

Context {U : Unicode} {F : FloatText} {T : TextBlob} {P : Parser}
        {V : Pandas} {W : CsvWriter}.

(** X6: when [pd.read_csv] raises, nothing catches the exception: the run
    has rendered the title and the introduction and ends with it. *)
Theorem unreadable_file_raises (file : csv) (es : list element) (e : exn)
        (sentiment_choice : str) :
  read_csv file = (es, Raised e) ->
  script (Some file) sentiment_choice =
    ([st_title page_title; st_markdown intro], Raised e).
Proof.
  intros Hread. pose proof (read_csv_quiet _ _ _ Hread) as ->.
  assert (Hd : dashboard file sentiment_choice = ([], Raised e)).
  { unfold dashboard, classified_table. rewrite Hread. reflexivity. }
  unfold script. rewrite Hd. reflexivity.
Qed.

End MoreRun.

Lemma unreadable_file_raises_witness :
  @read_csv whole_numbers no_header = ([], Raised EmptyDataError) /\
  @script ascii_only whole_percent two_words whole_numbers
      pandas2 cr_unquoted (Some no_header) (lit "All") =
    ([st_title page_title; st_markdown intro], Raised EmptyDataError).
Proof.
  split; [reflexivity|].
  apply (unreadable_file_raises (U := ascii_only) (F := whole_percent)
           (T := two_words) (P := whole_numbers) (V := pandas2)
           no_header []).
  reflexivity.
Defined.

(** ** More on the counts *)

Lemma count_value_cons (k v : value) (s : Series) :
  count_value k (v :: s) =
  ((if value_eqb k v then 1 else 0) + count_value k s)%nat.
Proof. unfold count_value. simpl. destruct (value_eqb k v); reflexivity. Qed.

Lemma count_value_absent (k : value) (s : Series) :
  is_string k -> Forall is_string s -> ~ In k s -> count_value k s = 0%nat.
Proof.
  intros Hk Hs Hn.
  destruct (count_value k s) as [|n] eqn:E; [reflexivity|].
  exfalso. apply Hn. apply count_value_In; [assumption..|]. lia.
Qed.

Lemma list_sum_cons (x : nat) (l : list nat) :
  list_sum (x :: l) = (x + list_sum l)%nat.
Proof. reflexivity. Qed.

(** Over keys without repetition, the counts split at any one value. *)
Lemma sum_split (v : value) (f : value -> nat) (l : list value) :
  is_string v -> Forall is_string l -> NoDup l ->
  list_sum (map f l) =
  ((if existsb (value_eqb v) l then f v else 0)
   + list_sum (map f (filter (fun w => negb (value_eqb v w)) l)))%nat.
Proof.
  intros Hv Hl Hnd. induction Hnd as [|x l Hx Hnd IH]; [reflexivity|].
  inversion Hl as [|? ? Hxs Hl']; subst. specialize (IH Hl').
  cbn [map existsb filter]. rewrite list_sum_cons.
  destruct (value_eqb v x) eqn:E; cbn [negb orb].
  - apply value_eqb_string in E; [|assumption..]. subst x.
    assert (Hex : existsb (value_eqb v) l = false).
    { destruct (existsb (value_eqb v) l) eqn:E2; [|reflexivity].
      apply existsb_exists in E2. destruct E2 as [w [Hw Hvw]].
      rewrite Forall_forall in Hl'.
      apply value_eqb_string in Hvw; [subst; contradiction | assumption | auto]. }
    rewrite Hex in IH. rewrite IH. reflexivity.
  - cbn [map]. rewrite list_sum_cons, IH. lia.
Qed.

Lemma unique_strings (s : Series) :
  Forall is_string s -> Forall is_string (unique s).
Proof.
  intros Hs. apply Forall_forall. intros k Hk.
  apply (unique_In s k Hs) in Hk. rewrite Forall_forall in Hs. auto.
Qed.

(** Every entry of a column of strings is counted once. *)
Lemma unique_counts_sum (s : Series) :
  Forall is_string s ->
  list_sum (map (fun k => count_value k s) (unique s)) = List.length s.
Proof.
  induction 1 as [|v s Hv Hs IH]; [reflexivity|].
  cbn [unique map List.length]. rewrite list_sum_cons.
  rewrite count_value_cons.
  assert (E : value_eqb v v = true) by (apply value_eqb_string; auto).
  rewrite E.
  rewrite (map_ext_in (fun k => count_value k (v :: s))
                      (fun k => count_value k s)).
  - rewrite (sum_split v (fun k => count_value k s) (unique s) Hv
               (unique_strings s Hs) (unique_NoDup s Hs)) in IH.
    destruct (existsb (value_eqb v) (unique s)) eqn:Ex.
    + lia.
    + assert (Hz : count_value v s = 0%nat).
      { apply count_value_absent; [assumption..|]. intros Hin.
        apply (unique_In s v Hs) in Hin.
        assert (existsb (value_eqb v) (unique s) = true).
        { apply existsb_exists. exists v. split; [exact Hin | exact E]. }
        congruence. }
      lia.
  - intros k Hk. apply filter_In in Hk. destruct Hk as [_ Hk].
    rewrite count_value_cons.
    destruct (value_eqb k v) eqn:Ekv; [|reflexivity].
    assert (Hks : is_string k).
    { destruct Hv as [t Ht].
      destruct k; try (rewrite Ht in Ekv; discriminate). eexists; reflexivity. }
    apply value_eqb_string in Ekv; [|assumption..]. subst k.
    rewrite E in Hk. discriminate.
Qed.

Lemma value_counts_sum (s : Series) :
  Forall is_string s ->
  list_sum (map snd (value_counts s)) = List.length s.
Proof.
  intros Hs. unfold value_counts. rewrite (dropna_strings s Hs).
  rewrite (Permutation_list_sum
             (Permutation_map snd (sort_desc_Permutation _))).
  rewrite map_map. cbn [snd]. apply unique_counts_sum, Hs.
Qed.

Section MoreCharts.

Context {U : Unicode} {F : FloatText} {T : TextBlob} {P : Parser}
        {V : Pandas} {W : CsvWriter}.

(** X11: the counts shown in the charts add up to the number of rows, and
    the charts have at most three entries. *)
Theorem charts_count_every_row (file : csv) (es : list element)
        (df : DataFrame) :
  classified_table file = (es, Done df) ->
  exists sentiment : Series,
    getitem df (lit "Sentiment") = ([], Done sentiment) /\
    list_sum (map snd (value_counts sentiment)) = len df /\
    (List.length (value_counts sentiment) <= 3)%nat.
Proof.
  intros H. destruct (classified_table_sentiment _ _ _ H) as [cleaned [Hget Hlen]].
  set (sentiment := series_apply get_sentiment cleaned) in *.
  pose proof (sentiment_strings cleaned) as Hs. fold sentiment in Hs.
  exists sentiment. split; [exact Hget|]. split.
  - rewrite (value_counts_sum sentiment Hs). unfold sentiment, series_apply, len.
    rewrite length_map. exact Hlen.
  - destruct (value_counts_strings sentiment Hs) as [_ [Hnodup Hin]].
    rewrite <- (length_map fst).
    apply (NoDup_incl_length (l' := map VStr labels) Hnodup).
    intros k Hk. apply in_map_iff in Hk. destruct Hk as [[k' n] [<- Hk]].
    apply Hin in Hk. destruct Hk as [Hk _]. cbn [fst].
    unfold sentiment, series_apply in Hk. apply in_map_iff in Hk.
    destruct Hk as [v [<- _]]. apply in_map. apply get_sentiment_label.
Qed.

(** X12: the metric of a label and its entry in the charts show the same
    number; a label with the metric 0 has no entry in the charts. *)
Theorem metric_matches_chart (file : csv) (es : list element)
        (df : DataFrame) (label : str) :
  classified_table file = (es, Done df) ->
  exists (sentiment : Series) (n : nat),
    getitem df (lit "Sentiment") = ([], Done sentiment) /\
    count_label df label = ([], Done n) /\
    ((0 < n)%nat -> In (VStr label, n) (value_counts sentiment)) /\
    (n = 0%nat -> forall m, ~ In (VStr label, m) (value_counts sentiment)).
Proof.
  intros H. destruct (classified_table_sentiment _ _ _ H) as [cleaned [Hget Hlen]].
  set (sentiment := series_apply get_sentiment cleaned) in *.
  pose proof (sentiment_strings cleaned) as Hs. fold sentiment in Hs.
  assert (Hl : List.length sentiment = nrows df)
    by (unfold sentiment, series_apply; rewrite length_map; exact Hlen).
  destruct (value_counts_strings sentiment Hs) as [_ [_ Hin]].
  exists sentiment, (count_true (series_eq sentiment label)).
  split; [exact Hget|]. split; [apply (count_label_eq _ _ _ Hget Hl)|].
  rewrite <- count_value_series_eq. split.
  - intros Hpos. apply Hin. split; [|reflexivity].
    apply count_value_In; [eexists; reflexivity | exact Hs | exact Hpos].
  - intros Hz m Hm. apply Hin in Hm. destruct Hm as [Hm _].
    pose proof (count_value_pos (VStr label) sentiment
                  (ex_intro _ label eq_refl) Hm). lia.
Qed.

End MoreCharts.

Lemma charts_count_every_row_witness :
  exists df : DataFrame,
    @classified_table ascii_only whole_percent two_words whole_numbers
      pandas2 two_bad_one_good = ([], Done df) /\
    exists sentiment : Series,
      getitem df (lit "Sentiment") = ([], Done sentiment) /\
      list_sum (map snd (value_counts sentiment)) = len df /\
      (List.length (value_counts sentiment) <= 3)%nat.
Proof.
  eexists. split; [vm_compute; reflexivity|].
  apply (charts_count_every_row (U := ascii_only) (F := whole_percent)
           (T := two_words) (P := whole_numbers) (V := pandas2)
           two_bad_one_good []).
  vm_compute. reflexivity.
Defined.

Lemma metric_matches_chart_witness :
  exists df : DataFrame,
    @classified_table ascii_only whole_percent two_words whole_numbers
      pandas2 two_bad_one_good = ([], Done df) /\
    exists (sentiment : Series) (n : nat),
      getitem df (lit "Sentiment") = ([], Done sentiment) /\
      count_label df (lit "Negative") = ([], Done n) /\
      ((0 < n)%nat -> In (VStr (lit "Negative"), n) (value_counts sentiment)) /\
      (n = 0%nat ->
       forall m, ~ In (VStr (lit "Negative"), m) (value_counts sentiment)).
Proof.
  eexists. split; [vm_compute; reflexivity|].
  apply (metric_matches_chart (U := ascii_only) (F := whole_percent)
           (T := two_words) (P := whole_numbers) (V := pandas2)
           two_bad_one_good []).
  vm_compute. reflexivity.
Defined.

(** ** More on the columns *)

Lemma set_column_names (c : Column) (cs : list Column) (name : str) :
  In name (map col_name (set_column c cs)) <->
  name = col_name c \/ In name (map col_name cs).
Proof.
  induction cs as [|c' cs IH]; simpl.
  - split; [intros [H|[]]; auto | intros [H|[]]; auto].
  - destruct (str_eqb (col_name c') (col_name c)) eqn:E; simpl.
    + apply str_eqb_eq in E. rewrite E. split; [intros [H|H]; auto | intros [H|[H|H]]; auto].
    + rewrite IH. split; [intros [H|[H|H]]; auto | intros [H|[H|H]]; auto].
Qed.

Lemma find_column_NoDup (c : Column) (cs : list Column) :
  NoDup (map col_name cs) -> In c cs -> find_column (col_name c) cs = Some c.
Proof.
  induction cs as [|c' cs IH]; simpl; [tauto|].
  intros Hnd [->|Hin].
  - rewrite str_eqb_refl. reflexivity.
  - inversion Hnd as [|? ? Hn Hnd']; subst.
    destruct (str_eqb (col_name c') (col_name c)) eqn:E.
    + apply str_eqb_eq in E. exfalso. apply Hn. rewrite E. apply in_map. exact Hin.
    + auto.
Qed.

Lemma take_columns_NoDup (l cs : list Column) :
  NoDup (map col_name cs) -> incl l cs ->
  take_columns (map col_name l) cs = Some l.
Proof.
  intros Hnd. induction l as [|c l IH]; intros Hincl; simpl; [reflexivity|].
  rewrite (find_column_NoDup c cs Hnd) by (apply Hincl; left; reflexivity).
  rewrite IH; [reflexivity|]. intros x Hx. apply Hincl. right. exact Hx.
Qed.

Lemma nth_series_apply (f : value -> str) (s : Series) (i : nat) :
  (i < List.length s)%nat ->
  nth i (series_apply f s) NaN = VStr (f (nth i s NaN)).
Proof.
  intros Hi. unfold series_apply.
  rewrite (nth_indep _ NaN (VStr (f NaN))) by (rewrite length_map; exact Hi).
  apply (map_nth (fun v => VStr (f v))).
Qed.

Lemma nth_map_seq {A : Type} (g : nat -> A) (d : A) (n i : nat) :
  (i < n)%nat -> nth i (map g (seq 0 n)) d = g i.
Proof.
  intros Hi. rewrite (nth_indep _ d (g 0%nat)) by (rewrite length_map, length_seq; exact Hi).
  rewrite (map_nth g), seq_nth by exact Hi. reflexivity.
Qed.

Lemma str_eqb_sym (a b : str) : str_eqb a b = str_eqb b a.
Proof.
  destruct (str_eqb a b) eqn:E1, (str_eqb b a) eqn:E2; try reflexivity.
  - apply str_eqb_eq in E1. subst. rewrite str_eqb_refl in E2. discriminate.
  - apply str_eqb_eq in E2. subst. rewrite str_eqb_refl in E1. discriminate.
Qed.

(** Setting a column keeps the names, or adds the new name at the end. *)
Lemma set_column_names_eq (c : Column) (cs : list Column) :
  map col_name (set_column c cs) =
  if existsb (str_eqb (col_name c)) (map col_name cs)
  then map col_name cs
  else map col_name cs ++ [col_name c].
Proof.
  induction cs as [|c' cs IH]; [reflexivity|].
  cbn [set_column map existsb].
  rewrite (str_eqb_sym (col_name c) (col_name c')).
  destruct (str_eqb (col_name c') (col_name c)) eqn:E; cbn [map orb].
  - apply str_eqb_eq in E. rewrite E. reflexivity.
  - rewrite IH. destruct (existsb _ _); reflexivity.
Qed.

Lemma any_missing_nil (n : nat) : any_missing [] n = false.
Proof.
  unfold any_missing. induction (seq 0 n) as [|i l IH]; [reflexivity|].
  exact IH.
Qed.

Section MoreTables.

Context {U : Unicode} {F : FloatText} {T : TextBlob} {P : Parser}
        {V : Pandas} {W : CsvWriter}.

(** A classified table, with the columns the combined text is made from. *)
Lemma classified_table_parts (file : csv) (es : list element) (df : DataFrame) :
  classified_table file = (es, Done df) ->
  exists (df0 : DataFrame) (cs : list Column),
    read_csv file = ([], Done df0) /\
    take_columns (select_dtypes_object df0) (df_columns df0) = Some cs /\
    (astype_str_keeps_missing && any_missing cs (nrows df0))%bool = false /\
    df = mkFrame (nrows df0)
           (derived_columns
              (map (fun i => VStr (join (lit " ") (map py_str (row_of cs i))))
                   (seq 0 (nrows df0)))
              (df_columns df0)).
Proof.
  unfold classified_table. intros H.
  apply bind_Done in H. destruct H as [es1 [df0 [es2 [H1 [H2 ->]]]]].
  pose proof (read_csv_quiet _ _ _ H1) as ->.
  apply bind_Done in H2. destruct H2 as [es3 [tc [es4 [H3 [H4 ->]]]]].
  unfold text_columns in H3.
  destruct (select_dtypes_object df0) as [|k ks] eqn:Etc; [discriminate|].
  simpl in H3. inversion H3; subst es3 tc. clear H3.
  rewrite classify_eq in H4.
  destruct (take_columns (k :: ks) (df_columns df0)) as [cs|] eqn:Et;
    [|discriminate].
  destruct (astype_str_keeps_missing && any_missing cs (nrows df0))%bool
    eqn:Em; [discriminate|].
  cbv zeta in H4. inversion H4; subst.
  exists df0, cs. split; [exact H1|].
  split; [rewrite Etc; exact Et|]. split; [exact Em | reflexivity].
Qed.

Lemma derived_getitems (n : nat) (combined : Series) (cs : list Column) :
  let df := mkFrame n (derived_columns combined cs) in
  getitem df (lit "Combined_Text") = ([], Done combined) /\
  getitem df (lit "Cleaned_Text")
    = ([], Done (series_apply clean_text combined)) /\
  getitem df (lit "Sentiment")
    = ([], Done (series_apply get_sentiment (series_apply clean_text combined))).
Proof.
  cbv zeta. unfold getitem, derived_columns. cbn [df_columns]. cbv zeta.
  split; [|split].
  - rewrite !find_column_set_other by reflexivity.
    rewrite (find_column_set_column (mkColumn (lit "Combined_Text") object combined)).
    reflexivity.
  - rewrite find_column_set_other by reflexivity.
    rewrite (find_column_set_column (mkColumn (lit "Cleaned_Text") object _)).
    reflexivity.
  - rewrite (find_column_set_column (mkColumn (lit "Sentiment") object _)).
    reflexivity.
Qed.

(** X8: in a classified table whose upload has distinct column names,
    the Combined_Text of a row is the texts of its cells in the columns of
    type object, in column order, joined by a space; its Cleaned_Text is
    [clean_text] of its Combined_Text and its Sentiment is [get_sentiment]
    of its Cleaned_Text. *)
Theorem classified_rows (file : csv) (es0 es : list element)
        (df0 df : DataFrame) :
  read_csv file = (es0, Done df0) ->
  NoDup (map col_name (df_columns df0)) ->
  classified_table file = (es, Done df) ->
  exists combined cleaned sentiment : Series,
    getitem df (lit "Combined_Text") = ([], Done combined) /\
    getitem df (lit "Cleaned_Text") = ([], Done cleaned) /\
    getitem df (lit "Sentiment") = ([], Done sentiment) /\
    forall i : nat,
      (i < len df)%nat ->
      nth i combined NaN
        = VStr (join (lit " ") (map py_str (row_of (text_columns_of df0) i))) /\
      nth i cleaned NaN = VStr (clean_text (nth i combined NaN)) /\
      nth i sentiment NaN = VStr (get_sentiment (nth i cleaned NaN)).
Proof.
  intros Hread Hnd Hct.
  destruct (classified_table_parts _ _ _ Hct) as [df0' [cs [Hread' [Htake [Hmiss ->]]]]].
  pose proof (read_csv_quiet _ _ _ Hread) as ->.
  rewrite Hread in Hread'. injection Hread' as <-.
  assert (Hcs : cs = text_columns_of df0).
  { unfold select_dtypes_object in Htake. fold (text_columns_of df0) in Htake.
    rewrite (take_columns_NoDup _ _ Hnd) in Htake.
    - injection Htake as <-. reflexivity.
    - intros c Hc. apply filter_In in Hc. tauto. }
  subst cs.
  set (combined := map _ (seq 0 (nrows df0))).
  destruct (derived_getitems (nrows df0) combined (df_columns df0))
    as [H1 [H2 H3]].
  exists combined, (series_apply clean_text combined),
    (series_apply get_sentiment (series_apply clean_text combined)).
  split; [exact H1|]. split; [exact H2|]. split; [exact H3|].
  intros i Hi. unfold len in Hi. cbn [nrows] in Hi.
  assert (Hlen : List.length combined = nrows df0)
    by (unfold combined; rewrite length_map, length_seq; reflexivity).
  split; [|split].
  - unfold combined. rewrite (nth_map_seq _ NaN (nrows df0) i Hi). reflexivity.
  - apply nth_series_apply. lia.
  - apply nth_series_apply. unfold series_apply. rewrite length_map. lia.
Qed.

(** X9: classification keeps the number of rows and every column of the
    upload that is not named Combined_Text, Cleaned_Text or Sentiment.  The
    column names of the classified table are those of the upload, in their
    order, followed by those of the three names that the upload does not
    have: an uploaded column of one of these names is replaced where it
    stands and no second column of that name is added, so names that were
    distinct stay distinct.  The column found under each of the three names
    is the derived one. *)
Theorem classify_keeps_columns (file : csv) (es0 es : list element)
        (df0 df : DataFrame) :
  read_csv file = (es0, Done df0) ->
  classified_table file = (es, Done df) ->
  len df = len df0 /\
  (forall key : str,
     ~ In key derived_names ->
     find_column key (df_columns df) = find_column key (df_columns df0)) /\
  map col_name (df_columns df)
  = map col_name (df_columns df0)
    ++ filter (absent (map col_name (df_columns df0))) derived_names /\
  (NoDup (map col_name (df_columns df0)) ->
   NoDup (map col_name (df_columns df))) /\
  exists combined : Series,
    find_column (lit "Combined_Text") (df_columns df)
    = Some (mkColumn (lit "Combined_Text") object combined) /\
    find_column (lit "Cleaned_Text") (df_columns df)
    = Some (mkColumn (lit "Cleaned_Text") object
                     (series_apply clean_text combined)) /\
    find_column (lit "Sentiment") (df_columns df)
    = Some (mkColumn (lit "Sentiment") object
              (series_apply get_sentiment (series_apply clean_text combined))).
Proof.
  intros Hread Hct.
  destruct (classified_table_parts _ _ _ Hct) as [df0' [cs [Hread' [_ [_ ->]]]]].
  pose proof (read_csv_quiet _ _ _ Hread) as ->.
  rewrite Hread in Hread'. injection Hread' as <-.
  split; [reflexivity|]. cbn [df_columns].
  set (combined := map _ (seq 0 (nrows df0))).
  assert (Hnames :
    map col_name (derived_columns combined (df_columns df0))
    = map col_name (df_columns df0)
      ++ filter (absent (map col_name (df_columns df0))) derived_names).
  { unfold derived_columns. cbv zeta.
    rewrite !set_column_names_eq. cbn [col_name].
    unfold derived_names, absent. cbn [filter].
    destruct (existsb (str_eqb (lit "Combined_Text"))
                      (map col_name (df_columns df0))) eqn:E1;
      destruct (existsb (str_eqb (lit "Cleaned_Text"))
                        (map col_name (df_columns df0))) eqn:E2;
      destruct (existsb (str_eqb (lit "Sentiment"))
                        (map col_name (df_columns df0))) eqn:E3;
      repeat (rewrite ?existsb_app, ?E1, ?E2, ?E3; cbn [existsb negb orb];
              change (str_eqb (lit "Cleaned_Text") (lit "Combined_Text"))
                with false;
              change (str_eqb (lit "Sentiment") (lit "Combined_Text"))
                with false;
              change (str_eqb (lit "Sentiment") (lit "Cleaned_Text"))
                with false);
      rewrite <- ?app_assoc, ?app_nil_r; reflexivity. }
  split; [|split; [exact Hnames|split]].
  - intros key Hkey. unfold derived_columns. cbv zeta.
    assert (Hne : forall name, In name derived_names -> str_eqb name key = false).
    { intros name Hname. destruct (str_eqb name key) eqn:E; [|reflexivity].
      apply str_eqb_eq in E. subst. contradiction. }
    rewrite !find_column_set_other; [reflexivity| | |]; cbn [col_name];
      apply Hne; simpl; auto.
  - intros Hnd. rewrite Hnames. apply NoDup_app; [exact Hnd | |].
    + apply NoDup_filter. unfold derived_names.
      constructor; [intros [H|[H|[]]]; discriminate H|].
      constructor; [intros [H|[]]; discriminate H|].
      constructor; [intros []|constructor].
    + intros name Hin Hf. apply filter_In in Hf. destruct Hf as [_ Hf].
      unfold absent in Hf. apply negb_true_iff in Hf.
      assert (Ht : existsb (str_eqb name) (map col_name (df_columns df0)) = true)
        by (apply existsb_exists; exists name; split;
            [exact Hin | apply str_eqb_refl]).
      congruence.
  - exists combined. unfold derived_columns. cbv zeta. split; [|split].
    + rewrite !find_column_set_other by reflexivity.
      apply (find_column_set_column
               (mkColumn (lit "Combined_Text") object combined)).
    + rewrite find_column_set_other by reflexivity.
      apply (find_column_set_column (mkColumn (lit "Cleaned_Text") object _)).
    + apply (find_column_set_column (mkColumn (lit "Sentiment") object _)).
Qed.

(** X10: a missing value in a text column.  Where [astype(str)] leaves it
    missing, line 42 raises a type error and the run ends there, with the
    title and the introduction on the page.  Where [astype(str)] makes it
    the text nan and the upload has one text column, the table is
    classified, the row's Cleaned_Text is the word nan and its Sentiment is
    the label of that word. *)
Theorem missing_text_cell (file : csv) (es0 : list element)
        (df0 : DataFrame) (sentiment_choice : str) :
  read_csv file = (es0, Done df0) ->
  missing_text df0 = true ->
  (astype_str_keeps_missing = true ->
   script (Some file) sentiment_choice
   = ([st_title page_title; st_markdown intro], Raised TypeError)) /\
  (astype_str_keeps_missing = false ->
   forall (key : str) (c : Column) (i : nat),
     select_dtypes_object df0 = [key] ->
     find_column key (df_columns df0) = Some c ->
     (i < nrows df0)%nat ->
     nth i (col_values c) NaN = NaN ->
     exists (df : DataFrame) (cleaned sentiment : Series),
       classified_table file = ([], Done df) /\
       getitem df (lit "Cleaned_Text") = ([], Done cleaned) /\
       getitem df (lit "Sentiment") = ([], Done sentiment) /\
       nth i cleaned NaN = VStr (lit "nan") /\
       nth i sentiment NaN = VStr (get_sentiment (VStr (lit "nan")))).
Proof.
  intros Hread Hmiss.
  pose proof (read_csv_quiet _ _ _ Hread) as ->.
  assert (Hcols : select_dtypes_object df0 <> []).
  { intros E. unfold missing_text in Hmiss. rewrite E in Hmiss.
    cbn [take_columns] in Hmiss. rewrite any_missing_nil in Hmiss.
    discriminate. }
  split.
  - intros Hv.
    assert (Hd : dashboard file sentiment_choice = ([], Raised TypeError)).
    { unfold dashboard, classified_table. rewrite Hread.
      as_ret. rewrite bind_ret. unfold text_columns.
      unfold missing_text in Hmiss.
      destruct (select_dtypes_object df0) as [|k ks] eqn:Etc; [contradiction|].
      cbn [List.length Nat.eqb]. rewrite !bind_ret. rewrite classify_eq.
      destruct (take_columns (k :: ks) (df_columns df0)) as [cs|];
        [|discriminate].
      rewrite Hv, Hmiss. reflexivity. }
    unfold script. rewrite Hd. reflexivity.
  - intros Hv key c i Hkey Hfind Hi Hcell.
    assert (Hnone : (astype_str_keeps_missing && missing_text df0)%bool = false)
      by (rewrite Hv; reflexivity).
    destruct (classified_table_total _ _ _ Hread Hcols Hnone)
      as [combined0 [_ Hct]].
    destruct (classified_table_parts _ _ _ Hct)
      as [df0' [cs [Hread' [Htake [_ Hdf]]]]].
    rewrite Hread in Hread'. injection Hread' as <-.
    rewrite Hkey in Htake. cbn [take_columns] in Htake. rewrite Hfind in Htake.
    injection Htake as <-.
    rewrite Hdf in Hct.
    set (combined := map _ (seq 0 (nrows df0))) in *.
    destruct (derived_getitems (nrows df0) combined (df_columns df0))
      as [_ [H2 H3]].
    assert (Hlen : List.length combined = nrows df0)
      by (unfold combined; rewrite length_map, length_seq; reflexivity).
    assert (Hc : nth i combined NaN = VStr (lit "nan")).
    { unfold combined. rewrite (nth_map_seq _ NaN (nrows df0) i Hi).
      unfold row_of. cbn [map]. rewrite Hcell. reflexivity. }
    assert (Hcl : nth i (series_apply clean_text combined) NaN
                  = VStr (lit "nan")).
    { rewrite nth_series_apply by lia. rewrite Hc. reflexivity. }
    eexists _, _, _. split; [exact Hct|]. split; [exact H2|].
    split; [exact H3|]. split; [exact Hcl|].
    rewrite nth_series_apply by (unfold series_apply; rewrite length_map; lia).
    rewrite Hcl. reflexivity.
Qed.

End MoreTables.

Lemma classified_rows_witness :
  exists df0 df : DataFrame,
    @read_csv whole_numbers one_missing = ([], Done df0) /\
    NoDup (map col_name (df_columns df0)) /\
    @classified_table ascii_only whole_percent two_words whole_numbers
      pandas2 one_missing = ([], Done df) /\
    exists combined cleaned sentiment : Series,
      getitem df (lit "Combined_Text") = ([], Done combined) /\
      getitem df (lit "Cleaned_Text") = ([], Done cleaned) /\
      getitem df (lit "Sentiment") = ([], Done sentiment).
Proof.
  eexists. eexists.
  split; [vm_compute; reflexivity|].
  assert (Hnd : NoDup [lit "id"; lit "text"]).
  { constructor; [intros [H|[]]; discriminate H|].
    constructor; [intros []|constructor]. }
  split; [exact Hnd|].
  split; [vm_compute; reflexivity|].
  destruct (classified_rows (U := ascii_only) (F := whole_percent)
              (T := two_words) (P := whole_numbers) (V := pandas2)
              one_missing [] [] _ _ eq_refl Hnd eq_refl)
    as [combined [cleaned [sentiment [H1 [H2 [H3 _]]]]]].
  exists combined, cleaned, sentiment. auto.
Defined.

Lemma classify_keeps_columns_witness :
  exists df0 df : DataFrame,
    @read_csv whole_numbers one_missing = ([], Done df0) /\
    @classified_table ascii_only whole_percent two_words whole_numbers
      pandas2 one_missing = ([], Done df) /\
    len df = len df0 /\
    find_column (lit "id") (df_columns df)
    = find_column (lit "id") (df_columns df0) /\
    map col_name (df_columns df)
    = [lit "id"; lit "text";
       lit "Combined_Text"; lit "Cleaned_Text"; lit "Sentiment"] /\
    NoDup (map col_name (df_columns df)).
Proof.
  eexists. eexists.
  split; [vm_compute; reflexivity|].
  split; [vm_compute; reflexivity|].
  destruct (classify_keeps_columns (U := ascii_only) (F := whole_percent)
              (T := two_words) (P := whole_numbers) (V := pandas2)
              one_missing [] [] _ _ eq_refl eq_refl)
    as [Hlen [Hkeep [Hnames [Hnd _]]]].
  split; [exact Hlen|]. split.
  - apply Hkeep. intros [H|[H|[H|[]]]]; discriminate H.
  - split; [exact Hnames|]. apply Hnd.
    constructor; [intros [H|[]]; discriminate H|].
    constructor; [intros []|constructor].
Defined.

Lemma missing_text_cell_witness :
  exists df0 : DataFrame,
    @read_csv whole_numbers one_missing = ([], Done df0) /\
    missing_text df0 = true /\
    @script ascii_only whole_percent two_words whole_numbers pandas3
      cr_unquoted (Some one_missing) (lit "All")
    = ([st_title page_title; st_markdown intro], Raised TypeError) /\
    exists (df : DataFrame) (cleaned : Series),
      @classified_table ascii_only whole_percent two_words whole_numbers
        pandas2 one_missing = ([], Done df) /\
      getitem df (lit "Cleaned_Text") = ([], Done cleaned) /\
      nth 1 cleaned NaN = VStr (lit "nan").
Proof.
  eexists. split; [vm_compute; reflexivity|]. split; [reflexivity|]. split.
  - apply (missing_text_cell (U := ascii_only) (F := whole_percent)
             (T := two_words) (P := whole_numbers) (V := pandas3)
             (W := cr_unquoted)
             one_missing [] _ (lit "All") eq_refl eq_refl).
    reflexivity.
  - destruct (missing_text_cell (U := ascii_only) (F := whole_percent)
                (T := two_words) (P := whole_numbers) (V := pandas2)
                (W := cr_unquoted)
                one_missing [] _ (lit "All") eq_refl eq_refl)
      as [_ H].
    destruct (H eq_refl (lit "text") _ 1%nat eq_refl eq_refl
                ltac:(vm_compute; reflexivity) eq_refl)
      as [df [cleaned [sentiment [H1 [H2 [_ [H4 _]]]]]]].
    exists df, cleaned. auto.
Defined.

(** ** More on the run, the filter and the export *)

Section MoreDashboard.

Context {U : Unicode} {F : FloatText} {T : TextBlob} {P : Parser}
        {V : Pandas} {W : CsvWriter}.

Lemma percent_nonzero (n total : nat) :
  total <> 0%nat -> percent n total = ret (percent_text n total ++ lit "%").
Proof.
  intros H. unfold percent. destruct total; [contradiction | reflexivity].
Qed.

(** On a classified table the filter does not fail, whatever the choice. *)
Lemma filtered_total (file : csv) (es : list element) (df : DataFrame)
      (choice : str) :
  classified_table file = (es, Done df) ->
  exists sub : DataFrame, filtered df choice = ([], Done sub).
Proof.
  intros H. destruct (classified_table_sentiment _ _ _ H) as [cleaned [Hget Hlen]].
  unfold filtered. destruct (negb (str_eqb choice (lit "All")));
    [|exists df; reflexivity].
  rewrite Hget. as_ret. rewrite bind_ret. unfold getitem_mask.
  rewrite series_eq_length. unfold series_apply. rewrite length_map, Hlen.
  rewrite Nat.eqb_refl. eexists. reflexivity.
Qed.

(** X7: with a text column and at least one row, and with no missing
    value in a text column where [astype(str)] would leave it missing, the
    run goes through for every choice of the select box: it renders the
    four metrics with the counts of the three labels, the three charts of
    [value_counts], the filtered table and the download of that same
    table, and ends normally. *)
Theorem table_with_rows_runs (file : csv) (es0 : list element)
        (df0 : DataFrame) (sentiment_choice : str) :
  read_csv file = (es0, Done df0) ->
  select_dtypes_object df0 <> [] ->
  nrows df0 <> 0%nat ->
  (astype_str_keeps_missing && missing_text df0)%bool = false ->
  exists (df filtered_df : DataFrame) (sentiment : Series),
    classified_table file = ([], Done df) /\
    getitem df (lit "Sentiment") = ([], Done sentiment) /\
    filtered df sentiment_choice = ([], Done filtered_df) /\
    let total := len df in
    let pos := count_true (series_eq sentiment (lit "Positive")) in
    let neu := count_true (series_eq sentiment (lit "Neutral")) in
    let neg := count_true (series_eq sentiment (lit "Negative")) in
    let counts := value_counts sentiment in
    script (Some file) sentiment_choice =
      ([st_title page_title; st_markdown intro;
        st_tabs [lit "Summary"; lit "Charts"; lit "Filtered Data"];
        st_subheader (128202 :: lit " Sentiment Summary");
        st_metric (lit "Total Rows") total None;
        st_metric (lit "Positive") pos
                  (Some (percent_text pos total ++ lit "%"));
        st_metric (lit "Neutral") neu
                  (Some (percent_text neu total ++ lit "%"));
        st_metric (lit "Negative") neg
                  (Some (percent_text neg total ++ lit "%"));
        st_subheader (128202 :: lit " Sentiment Charts");
        st_pyplot (BarChart (colored chart_colors counts) (lit "Count")
                            (lit "Sentiment") (lit "Sentiment Distribution"));
        st_pyplot (PieChart (colored chart_colors counts));
        st_subheader (128200 :: lit " Count Graph");
        st_pyplot (LinePlot counts (lit "Sentiment") (lit "Count")
                            (lit "Sentiment Count"));
        st_subheader (128269 :: lit " Filter Rows");
        st_selectbox (lit "Select Sentiment") choices;
        st_dataframe filtered_df 300;
        st_download_button (128229 :: lit " Download Filtered Data as CSV")
                           (to_csv filtered_df)
                           (lit "filtered_reviews.csv") (lit "text/csv")],
       Done tt).
Proof.
  intros Hread Hcols Hrows Hmiss.
  destruct (classified_table_total _ _ _ Hread Hcols Hmiss)
    as [combined [Hlen Hct]].
  set (df := mkFrame (nrows df0) (derived_columns combined (df_columns df0))) in *.
  destruct (classified_table_sentiment _ _ _ Hct) as [cleaned [Hget Hlen']].
  set (sentiment := series_apply get_sentiment cleaned) in *.
  destruct (filtered_total _ _ _ sentiment_choice Hct) as [sub Hsub].
  exists df, sub, sentiment.
  split; [exact Hct|]. split; [exact Hget|]. split; [exact Hsub|]. cbv zeta.
  assert (Hs : List.length sentiment = nrows df)
    by (unfold sentiment, series_apply; rewrite length_map; exact Hlen').
  assert (Hd : dashboard file sentiment_choice =
    ([st_tabs [lit "Summary"; lit "Charts"; lit "Filtered Data"];
      st_subheader (128202 :: lit " Sentiment Summary");
      st_metric (lit "Total Rows") (len df) None;
      st_metric (lit "Positive")
        (count_true (series_eq sentiment (lit "Positive")))
        (Some (percent_text (count_true (series_eq sentiment (lit "Positive")))
                            (len df) ++ lit "%"));
      st_metric (lit "Neutral")
        (count_true (series_eq sentiment (lit "Neutral")))
        (Some (percent_text (count_true (series_eq sentiment (lit "Neutral")))
                            (len df) ++ lit "%"));
      st_metric (lit "Negative")
        (count_true (series_eq sentiment (lit "Negative")))
        (Some (percent_text (count_true (series_eq sentiment (lit "Negative")))
                            (len df) ++ lit "%"));
      st_subheader (128202 :: lit " Sentiment Charts");
      st_pyplot (BarChart (colored chart_colors (value_counts sentiment))
                          (lit "Count") (lit "Sentiment")
                          (lit "Sentiment Distribution"));
      st_pyplot (PieChart (colored chart_colors (value_counts sentiment)));
      st_subheader (128200 :: lit " Count Graph");
      st_pyplot (LinePlot (value_counts sentiment) (lit "Sentiment")
                          (lit "Count") (lit "Sentiment Count"));
      st_subheader (128269 :: lit " Filter Rows");
      st_selectbox (lit "Select Sentiment") choices;
      st_dataframe sub 300;
      st_download_button (128229 :: lit " Download Filtered Data as CSV")
                         (to_csv sub)
                         (lit "filtered_reviews.csv") (lit "text/csv")],
     Done tt)).
  { unfold dashboard. rewrite Hct. as_ret. rewrite bind_ret. cbv zeta.
    rewrite !(count_label_eq df sentiment _ Hget Hs).
    do 3 (as_ret; rewrite bind_ret).
    unfold summary_tab, charts_tab, filter_tab.
    assert (Ht : len df <> 0%nat) by exact Hrows.
    rewrite !(percent_nonzero _ _ Ht), Hget, Hsub. reflexivity. }
  unfold script. rewrite Hd. reflexivity.
Qed.






End MoreDashboard.

Lemma table_with_rows_runs_witness :
  exists df0 : DataFrame,
    @read_csv whole_numbers two_bad_one_good = ([], Done df0) /\
    select_dtypes_object df0 <> [] /\
    nrows df0 <> 0%nat /\
    (@astype_str_keeps_missing pandas3 && missing_text df0)%bool = false /\
    exists es : list element,
      @script ascii_only whole_percent two_words whole_numbers pandas3
        cr_unquoted (Some two_bad_one_good) (lit "Negative") = (es, Done tt).
Proof.
  eexists. split; [vm_compute; reflexivity|].
  split; [discriminate|]. split; [discriminate|]. split; [reflexivity|].
  destruct (table_with_rows_runs (U := ascii_only) (F := whole_percent)
              (T := two_words) (P := whole_numbers) (V := pandas3)
              (W := cr_unquoted)
              two_bad_one_good [] _ (lit "Negative") eq_refl
              ltac:(discriminate) ltac:(discriminate) eq_refl)
    as [df [sub [sentiment [_ [_ [_ Hrun]]]]]].
  eexists. exact Hrun.
Defined.

